(** * download-or-build-purescript: the acquisition orchestrator of [index.js]

    A shallow embedding of [downloadOrBuildPurescript] as a reactive state
    machine.  The function body that runs when a consumer subscribes is the
    function [subscriber]; every callback the body registers with a
    collaborator (the [which]/[spawnStack] probe, [prepareWrite],
    [downloadPurescript], [execFile], [buildPurescript], [fs.rename]) is one
    constructor of [Input], and [step] runs the callback's body on the
    coordinator state.  The observer handed over by [zen-observable] is the
    pair [closed]/[out]: the notifications delivered to the consumer, in
    order. *)

From Stdlib Require Import String Ascii List Bool Arith ZArith Lia.
From Stdlib Require Import DecimalString.
Import ListNotations.
Open Scope string_scope.

Set Implicit Arguments.

(** ** JavaScript values and errors *)

#[warnings="-register-all"]
Inductive JsVal : Type :=
| VUndefined
| VNull
| VBool (b : bool)
| VNum (n : Z)
| VNaN
| VStr (s : string)
| VFun (f : string -> JsVal)            (* a function applied to a binary name *)
| VObj (props : list (string * JsVal))  (* a plain object *)
| VOther (shown : string).              (* any other object: array, Set, typed array ... *)

Definition typeof (v : JsVal) : string :=
  match v with
  | VUndefined => "undefined"
  | VNull => "object"
  | VBool _ => "boolean"
  | VNum _ | VNaN => "number"
  | VStr _ => "string"
  | VFun _ => "function"
  | VObj _ | VOther _ => "object"
  end.

Definition truthy (v : JsVal) : bool :=
  match v with
  | VUndefined | VNull | VNaN => false
  | VBool b => b
  | VNum n => negb (Z.eqb n 0)
  | VStr s => negb (String.eqb s "")
  | VFun _ | VObj _ | VOther _ => true
  end.

Definition isUndefined (v : JsVal) : bool :=
  match v with VUndefined => true | _ => false end.

(** [is-plain-obj] *)
Definition isPlainObj (v : JsVal) : bool :=
  match v with VObj _ => true | _ => false end.

(** [v === s] for a string [s] *)
Definition strictEqStr (v : JsVal) (s : string) : bool :=
  match v with VStr t => String.eqb t s | _ => false end.

Fixpoint lookupProp (name : string) (props : list (string * JsVal)) : JsVal :=
  match props with
  | [] => VUndefined
  | (k, v) :: rest => if String.eqb k name then v else lookupProp name rest
  end.

(** [obj[name]]; only objects carry properties here *)
Definition getProp (obj : JsVal) (name : string) : JsVal :=
  match obj with
  | VObj props => lookupProp name props
  | _ => VUndefined
  end.

Record JsError : Type := mkError {
  err_name : string;            (* RangeError, TypeError, Error ... *)
  err_message : string;
  err_code : option string;
  err_id : option string
}.

(** [addId(obj, id)]: defines (or redefines) the property [id] *)
Definition addId (obj : JsError) (id : string) : JsError :=
  mkError (err_name obj) (err_message obj) (err_code obj) (Some id).

Definition appendMessage (obj : JsError) (more : string) : JsError :=
  mkError (err_name obj) (err_message obj ++ more) (err_code obj) (err_id obj).

Definition newError (name msg : string) : JsError :=
  mkError name msg None None.

(** [String.prototype.replace] with a string pattern: the first occurrence
    only.  The replacement used by the source has no [$] pattern in it. *)
Fixpoint replaceFirst (pat rep s : string) : string :=
  if String.prefix pat s
  then rep ++ substring (String.length pat) (String.length s - String.length pat) s
  else match s with
       | EmptyString => EmptyString
       | String c s' => String c (replaceFirst pat rep s')
       end.

Definition retagSource (id : string) : string :=
  replaceFirst "download" "download-source" id.

(** ** The host: Node's runtime and the pure helpers of its libraries *)

Class Host : Type := {
  process_platform : string;                   (* process.platform *)
  defaultVersion : string;                     (* downloadPurescript.defaultVersion *)
  resolve : string -> string -> string;        (* path.resolve(dir, name) *)
  join : string -> string -> string;           (* path.join(dir, name) *)
  basename : string -> string -> string;       (* path.basename(path, ext) *)
  inspect : JsVal -> string;                   (* util.inspect *)
  inspectWithKind : JsVal -> string            (* inspect-with-kind *)
}.

Definition DIR_ERROR : string :=
  "Expected a path where the PureScript binary will be installed".

Definition getPlatformBinName (platform : JsVal) : string :=
  "purs" ++ (if strictEqStr platform "win32" then ".exe" else "").

Definition unsupportedOptions : list string := ["filter"; "revision"].

Definition showNat (n : nat) : string := NilEmpty.string_of_uint (Nat.to_uint n).

Section Validation.
Context {H : Host}.

Definition initialBinName : string := getPlatformBinName (VStr process_platform).

(** The loop over [unsupportedOptions]: the first one that is set throws. *)
Fixpoint checkUnsupported (names : list string) (options : JsVal) : option JsError :=
  match names with
  | [] => None
  | optionName :: rest =>
      let val := getProp options optionName in
      if negb (isUndefined val)
      then Some (newError "Error"
                   ("`" ++ optionName ++ "` option is not supported, but "
                        ++ inspect val ++ " was provided to it."))
      else checkUnsupported rest options
  end.

(** A validated request: what the rest of the body closes over. *)
Record Request : Type := mkRequest {
  dir : string;
  options : JsVal
}.

(** Lines 40-85: the checks on the argument list.  [inl] is a thrown error. *)
Definition checkArgs (args : list JsVal) : JsError + Request :=
  let argLen := List.length args in
  if negb (Nat.eqb argLen 1) && negb (Nat.eqb argLen 2)
  then inl (newError "RangeError"
              ("Expected 1 or 2 arguments (<string>[, <Object>]), but got "
                 ++ (if Nat.eqb argLen 0 then "no" else showNat argLen)
                 ++ " arguments."))
  else
    let dirV := nth 0 args VUndefined in
    let options := if isUndefined (nth 1 args VUndefined)
                   then VObj [] else nth 1 args VUndefined in
    match dirV with
    | VStr dir =>
        if Nat.eqb (String.length dir) 0
        then inl (newError "Error" (DIR_ERROR ++ ", but got '' (empty string)."))
        else if Nat.eqb argLen 2
        then
          if negb (isPlainObj options)
          then inl (newError "TypeError"
                      ("Expected an object to specify options of install-purescript, but got "
                         ++ inspectWithKind options ++ "."))
          else if negb (isUndefined (getProp options "rename"))
                  && negb (String.eqb (typeof (getProp options "rename")) "function")
          then inl (newError "TypeError"
                      ("`rename` option must be a function, but "
                         ++ inspectWithKind (getProp options "rename")
                         ++ " was provided."))
          else match checkUnsupported unsupportedOptions options with
               | Some e => inl e
               | None => inr (mkRequest dir options)
               end
        else inr (mkRequest dir options)
    | _ => inl (newError "TypeError"
                  (DIR_ERROR ++ ", but got " ++ inspectWithKind dirV ++ "."))
    end.

Definition version (r : Request) : JsVal :=
  if truthy (getProp (options r) "version")
  then getProp (options r) "version" else VStr defaultVersion.

Definition isDifferentPlatform (r : Request) : bool :=
  truthy (getProp (options r) "platform")
  && negb (strictEqStr (getProp (options r) "platform") process_platform).

Definition defaultBinName (r : Request) : string :=
  getPlatformBinName
    (if truthy (getProp (options r) "platform")
     then getProp (options r) "platform" else VStr process_platform).

(** [options.rename ? options.rename(defaultBinName) : defaultBinName].
    After [checkArgs] a truthy [rename] is a function. *)
Definition renamed (r : Request) : JsVal :=
  match getProp (options r) "rename" with
  | VFun f => f (defaultBinName r)
  | _ => VStr (defaultBinName r)
  end.

(** Lines 100-111: the checks on the renamed binary name. *)
Definition checkBinName (r : Request) : JsError + string :=
  match renamed r with
  | VStr binName =>
      if Nat.eqb (String.length binName) 0
      then inl (newError "Error"
                  "Expected `rename` option to be a function that returns a new binary name, but returned '' (empty string).")
      else inr binName
  | v => inl (newError "TypeError"
                ("Expected `rename` option to be a function that returns a string, but returned "
                   ++ inspectWithKind v ++ "."))
  end.

End Validation.

(** ** What the consumer receives *)

(** The other properties of a collaborator's progress object. *)
Definition Payload : Type := list (string * JsVal).

Inductive Event : Type :=
| EvId (id : string)                                  (* {id} *)
| EvFail (id : string) (error : JsError)              (* {id, error} *)
| EvStack (path : option string) (version : string)   (* stackCheckResult *)
| EvProgress (id : string) (rest : Payload).          (* a forwarded progress object *)

Definition event_id (e : Event) : string :=
  match e with
  | EvId id | EvFail id _ | EvProgress id _ => id
  | EvStack _ _ => "check-stack"
  end.

(** One notification on the returned Observable.  [OComplete] carries the
    argument list of [observer.complete(...)]: a call without arguments passes
    [undefined]. *)
Inductive Emission : Type :=
| ONext (e : Event)
| OError (e : JsError)
| OComplete (v : JsVal).

(** ** The coordinator state *)

Inductive SubId : Type := SubDownload | SubBuild.

(** A subscription to a collaborator's Observable. *)
Inductive SubState : Type := SubNone | SubActive | SubSettled | SubReleased.

(** The toolchain probe: [which] first, then [spawnStack]. *)
Inductive ProbeState : Type := ProbeNone | ProbeWhich | ProbeVersion | ProbeSettled.

Inductive OpState : Type := OpNone | OpPending | OpSettled.

(** [execFile(file, ['--version'], ...)] *)
Inductive ExecState : Type := ExecNone | ExecPending (file : string) | ExecSettled.

(** A pending [rename(oldPath, newPath, callback)]; the callback closes over
    the [build:complete] progress object. *)
Record RenameReq : Type := mkRename {
  oldPath : string;
  newPath : string;
  carried : Event
}.

Record State : Type := mkState {
  (* the observer *)
  closed : bool;                        (* observer.closed *)
  out : list Emission;                  (* delivered so far, oldest first *)
  (* the variables of the closure *)
  stackPath : option string;            (* stackCheckResult.path *)
  stackVersion : string;                (* stackCheckResult.version *)
  stackError : option JsError;          (* stackCheckResult.error *)
  binaryPathError : option JsError;
  startBuildCalled : bool;              (* feint: the first call was swallowed *)
  headCompleted : bool;                 (* once: completeHead already ran *)
  errorSwapped : bool;                  (* downloadObserver.error = handleBinaryDownloadError *)
  subscriptions : list SubId;           (* the Set, in insertion order *)
  (* the collaborators *)
  tmpSub : SubState;                    (* tmpSubscription *)
  probe : ProbeState;
  prep : OpState;                       (* prepareWrite *)
  dl : SubState;                        (* downloadPurescript *)
  verify : ExecState;
  builder : SubState;                   (* buildPurescript(dir, ...) *)
  renames : list RenameReq;
  (* instrumentation: how many times the body wrapped by feint has run *)
  fired : nat
}.

Definition setClosed (x : bool) (s : State) : State :=
  mkState x (out s) (stackPath s) (stackVersion s) (stackError s)
    (binaryPathError s) (startBuildCalled s) (headCompleted s)
    (errorSwapped s) (subscriptions s) (tmpSub s) (probe s) (prep s) (dl s)
    (verify s) (builder s) (renames s) (fired s).
Definition setOut (x : list Emission) (s : State) : State :=
  mkState (closed s) x (stackPath s) (stackVersion s) (stackError s)
    (binaryPathError s) (startBuildCalled s) (headCompleted s)
    (errorSwapped s) (subscriptions s) (tmpSub s) (probe s) (prep s) (dl s)
    (verify s) (builder s) (renames s) (fired s).
Definition setStackPath (x : option string) (s : State) : State :=
  mkState (closed s) (out s) x (stackVersion s) (stackError s)
    (binaryPathError s) (startBuildCalled s) (headCompleted s)
    (errorSwapped s) (subscriptions s) (tmpSub s) (probe s) (prep s) (dl s)
    (verify s) (builder s) (renames s) (fired s).
Definition setStackVersion (x : string) (s : State) : State :=
  mkState (closed s) (out s) (stackPath s) x (stackError s)
    (binaryPathError s) (startBuildCalled s) (headCompleted s)
    (errorSwapped s) (subscriptions s) (tmpSub s) (probe s) (prep s) (dl s)
    (verify s) (builder s) (renames s) (fired s).
Definition setStackError (x : option JsError) (s : State) : State :=
  mkState (closed s) (out s) (stackPath s) (stackVersion s) x
    (binaryPathError s) (startBuildCalled s) (headCompleted s)
    (errorSwapped s) (subscriptions s) (tmpSub s) (probe s) (prep s) (dl s)
    (verify s) (builder s) (renames s) (fired s).
Definition setBinaryPathError (x : option JsError) (s : State) : State :=
  mkState (closed s) (out s) (stackPath s) (stackVersion s) (stackError s) x
    (startBuildCalled s) (headCompleted s) (errorSwapped s) (subscriptions s)
    (tmpSub s) (probe s) (prep s) (dl s) (verify s) (builder s) (renames s)
    (fired s).
Definition setStartBuildCalled (x : bool) (s : State) : State :=
  mkState (closed s) (out s) (stackPath s) (stackVersion s) (stackError s)
    (binaryPathError s) x (headCompleted s) (errorSwapped s) (subscriptions s)
    (tmpSub s) (probe s) (prep s) (dl s) (verify s) (builder s) (renames s)
    (fired s).
Definition setHeadCompleted (x : bool) (s : State) : State :=
  mkState (closed s) (out s) (stackPath s) (stackVersion s) (stackError s)
    (binaryPathError s) (startBuildCalled s) x (errorSwapped s)
    (subscriptions s) (tmpSub s) (probe s) (prep s) (dl s) (verify s)
    (builder s) (renames s) (fired s).
Definition setErrorSwapped (x : bool) (s : State) : State :=
  mkState (closed s) (out s) (stackPath s) (stackVersion s) (stackError s)
    (binaryPathError s) (startBuildCalled s) (headCompleted s) x
    (subscriptions s) (tmpSub s) (probe s) (prep s) (dl s) (verify s)
    (builder s) (renames s) (fired s).
Definition setSubscriptions (x : list SubId) (s : State) : State :=
  mkState (closed s) (out s) (stackPath s) (stackVersion s) (stackError s)
    (binaryPathError s) (startBuildCalled s) (headCompleted s)
    (errorSwapped s) x (tmpSub s) (probe s) (prep s) (dl s) (verify s)
    (builder s) (renames s) (fired s).
Definition setTmpSub (x : SubState) (s : State) : State :=
  mkState (closed s) (out s) (stackPath s) (stackVersion s) (stackError s)
    (binaryPathError s) (startBuildCalled s) (headCompleted s)
    (errorSwapped s) (subscriptions s) x (probe s) (prep s) (dl s) (verify s)
    (builder s) (renames s) (fired s).
Definition setProbe (x : ProbeState) (s : State) : State :=
  mkState (closed s) (out s) (stackPath s) (stackVersion s) (stackError s)
    (binaryPathError s) (startBuildCalled s) (headCompleted s)
    (errorSwapped s) (subscriptions s) (tmpSub s) x (prep s) (dl s) (verify s)
    (builder s) (renames s) (fired s).
Definition setPrep (x : OpState) (s : State) : State :=
  mkState (closed s) (out s) (stackPath s) (stackVersion s) (stackError s)
    (binaryPathError s) (startBuildCalled s) (headCompleted s)
    (errorSwapped s) (subscriptions s) (tmpSub s) (probe s) x (dl s)
    (verify s) (builder s) (renames s) (fired s).
Definition setDl (x : SubState) (s : State) : State :=
  mkState (closed s) (out s) (stackPath s) (stackVersion s) (stackError s)
    (binaryPathError s) (startBuildCalled s) (headCompleted s)
    (errorSwapped s) (subscriptions s) (tmpSub s) (probe s) (prep s) x
    (verify s) (builder s) (renames s) (fired s).
Definition setVerify (x : ExecState) (s : State) : State :=
  mkState (closed s) (out s) (stackPath s) (stackVersion s) (stackError s)
    (binaryPathError s) (startBuildCalled s) (headCompleted s)
    (errorSwapped s) (subscriptions s) (tmpSub s) (probe s) (prep s) (dl s) x
    (builder s) (renames s) (fired s).
Definition setBuilder (x : SubState) (s : State) : State :=
  mkState (closed s) (out s) (stackPath s) (stackVersion s) (stackError s)
    (binaryPathError s) (startBuildCalled s) (headCompleted s)
    (errorSwapped s) (subscriptions s) (tmpSub s) (probe s) (prep s) (dl s)
    (verify s) x (renames s) (fired s).
Definition setRenames (x : list RenameReq) (s : State) : State :=
  mkState (closed s) (out s) (stackPath s) (stackVersion s) (stackError s)
    (binaryPathError s) (startBuildCalled s) (headCompleted s)
    (errorSwapped s) (subscriptions s) (tmpSub s) (probe s) (prep s) (dl s)
    (verify s) (builder s) x (fired s).
Definition setFired (x : nat) (s : State) : State :=
  mkState (closed s) (out s) (stackPath s) (stackVersion s) (stackError s)
    (binaryPathError s) (startBuildCalled s) (headCompleted s)
    (errorSwapped s) (subscriptions s) (tmpSub s) (probe s) (prep s) (dl s)
    (verify s) (builder s) (renames s) x.

(** ** The observer and the teardown *)

(** [subscription.unsubscribe()] on one member of [subscriptions]. *)
Definition release (id : SubId) (s : State) : State :=
  match id with
  | SubDownload => match dl s with SubActive => setDl SubReleased s | _ => s end
  | SubBuild => match builder s with SubActive => setBuilder SubReleased s | _ => s end
  end.

(** [cancelBuildOrDownloadPurescript]: the cleanup function the subscriber
    returns.  The Observable runs it when the subscription closes: on
    [error], on [complete] and on the consumer's [unsubscribe]. *)
Definition cancelBuildOrDownloadPurescript (s : State) : State :=
  fold_left (fun acc id => release id acc) (subscriptions s) s.

Definition close (s : State) : State :=
  cancelBuildOrDownloadPurescript (setClosed true s).

(** [observer.next(e)]: nothing once the subscription is closed. *)
Definition next (e : Event) (s : State) : State :=
  if closed s then s else setOut (out s ++ [ONext e]) s.

(** [observer.error(e)] *)
Definition error (e : JsError) (s : State) : State :=
  if closed s then s else close (setOut (out s ++ [OError e]) s).

(** [observer.complete()] *)
Definition complete (s : State) : State :=
  if closed s then s else close (setOut (out s ++ [OComplete VUndefined]) s).

(** The consumer's [subscription.unsubscribe()]. *)
Definition unsubscribe (s : State) : State :=
  if closed s then s else close s.

Definition sendError (err : JsError) (id : string) (s : State) : State :=
  error (addId err id) s.

(** ** The callbacks of the subscriber *)

Record Config : Type := mkConfig {
  req : Request;
  binName : string
}.

(** The archive entry fields the download filter rewrites. *)
Record Entry : Type := mkEntry {
  entry_path : string;
  header_path : string;
  absolute : string
}.

Section Coordinator.
Context {H : Host}.
Variable c : Config.

Definition binPath : string := resolve (dir (req c)) (binName c).

(** The body wrapped by [feint]. *)
Definition startBuildBody (s : State) : State :=
  let s := setFired (S (fired s)) s in
  match stackError s with
  | Some e => sendError e "check-stack" s
  | None =>
      let s := next (EvStack (stackPath s) (stackVersion s)) s in
      let s := next (EvId "check-stack:complete") s in
      setSubscriptions (subscriptions s ++ [SubBuild]) (setBuilder SubActive s)
  end.

(** [feint(fn)]: the first call does nothing, every later call runs [fn]. *)
Definition startBuild (s : State) : State :=
  if startBuildCalled s then startBuildBody s else setStartBuildCalled true s.

Definition startBuildIfNeeded (s : State) : State :=
  if closed s then s else startBuild s.

(** The callback of [fs.rename]. *)
Definition renameCallback (rq : RenameReq) (err : option JsError) (s : State) : State :=
  match err with
  | Some e => sendError e "build" s
  | None => complete (next (carried rq) s)
  end.

(** The [next] of the observer given to [buildPurescript(dir, ...)]. *)
Definition buildNext (id : string) (rest : Payload) (s : State) : State :=
  if String.eqb id "build:complete"
  then setRenames
         (renames s ++ [mkRename (resolve (dir (req c)) initialBinName) binPath
                                 (EvProgress id rest)]) s
  else next (EvProgress (retagSource id) rest) s.

(** Its [error]; [None] when [err.id] is not a string, where the source
    itself throws. *)
Definition buildError (err : JsError) (s : State) : option State :=
  match err_id err with
  | Some id => Some (sendError err (retagSource id) s)
  | None => None
  end.

(** The continuation of the [which] callback after [await spawnStack(...)]:
    [inr stdout] when it resolved, [inl err] when it threw. *)
Definition stackChecked (r : JsError + string) (s : State) : State :=
  startBuildIfNeeded
    match r with
    | inr stdout => setStackVersion stdout s
    | inl err => setStackError (Some err) s
    end.

Definition handleBinaryDownloadError (err : JsError) (s : State) : State :=
  let err := addId err "download-binary" in
  if isDifferentPlatform (req c)
  then error err s
  else startBuildIfNeeded (next (EvFail "download-binary:fail" err) s).

(** [downloadObserver.next] *)
Definition downloadNext (rest : Payload) (s : State) : State :=
  next (EvProgress "download-binary" rest) s.

(** [downloadObserver.error] as the object literal defines it. *)
Definition downloadError (err : JsError) (s : State) : State :=
  if match err_code err with
     | Some code => String.eqb code "ERR_UNSUPPORTED_PLATFORM"
     | None => false
     end && negb (isDifferentPlatform (req c))
  then startBuildIfNeeded (next (EvFail "head:fail" (addId err "head")) s)
  else sendError err "head" s.

(** The callback of [execFile(binPath, ['--version'], ...)]. *)
Definition execCallback (err : option JsError) (stderr : string) (s : State) : State :=
  match err with
  | Some e =>
      let e := addId (appendMessage e (String "010"%char stderr)) "check-binary" in
      startBuildIfNeeded (next (EvFail "check-binary:fail" e) s)
  | None => complete (next (EvId "check-binary:complete") s)
  end.

(** [downloadObserver.complete] *)
Definition downloadComplete (s : State) : State :=
  let s := next (EvId "download-binary:complete") s in
  if isDifferentPlatform (req c)
  then complete s
  else setVerify (ExecPending binPath) (next (EvId "check-binary") s).

(** The body wrapped by [once]. *)
Definition completeHead (s : State) : State :=
  if headCompleted s then s
  else
    let s := next (EvId "head:complete") (setHeadCompleted true s) in
    match binaryPathError s with
    | Some e => sendError e "download-binary" s
    | None => setErrorSwapped true s
    end.

(** The async function around [prepareWrite(binPath)]. *)
Definition prepared (r : option JsError) (s : State) : State :=
  match r with
  | None => s
  | Some err =>
      let s := setBinaryPathError (Some err) s in
      if closed s then s else completeHead s
  end.

(** The [filter] option given to [downloadPurescript]: the effect on the
    coordinator is [completeHead]; the answer and the rewritten entry are
    [filterEntry]. *)
Definition filterEntry (path : string) (entry : Entry) : bool * Entry :=
  if negb (String.eqb (basename path ".exe") "purs")
  then (false, entry)
  else (true, mkEntry ("purescript/" ++ binName c) ("purescript/" ++ binName c)
                      (join (dir (req c)) (binName c))).

(** ** One callback at a time *)

Inductive Input : Type :=
| TmpError (err : JsError)             (* tmpSubscription reports an error *)
| TmpImmediate                         (* setImmediate: tmpSubscription.unsubscribe() *)
| WhichDone (stackPath : option string)
| StackDone (r : JsError + string)
| PrepareDone (r : option JsError)
| Filter (path : string)
| DownloadNext (rest : Payload)
| DownloadError (err : JsError)
| DownloadComplete
| ExecDone (err : option JsError) (stderr : string)
| BuildNext (id : string) (rest : Payload)
| BuildError (err : JsError)
| RenameDone (k : nat) (err : option JsError)   (* the k-th pending rename calls back *)
| Unsubscribe.

Fixpoint dropNth {A : Type} (k : nat) (l : list A) : list A :=
  match l, k with
  | [], _ => []
  | _ :: l', O => l'
  | x :: l', S k' => x :: dropNth k' l'
  end.

(** [step s i] is [None] when the collaborator cannot make the call [i] in
    [s]: a callback is called once, an Observable notifies only while its
    subscription is active and is settled by its [error] and [complete]. *)
Definition step (s : State) (i : Input) : option State :=
  match i with
  | TmpError err =>
      match tmpSub s with
      | SubActive => Some (error err (setTmpSub SubSettled s))
      | _ => None
      end
  | TmpImmediate =>
      match tmpSub s with
      | SubActive => Some (setTmpSub SubReleased s)
      | SubSettled => Some s
      | _ => None
      end
  | WhichDone p =>
      match probe s with
      | ProbeWhich => Some (setStackPath p (setProbe ProbeVersion s))
      | _ => None
      end
  | StackDone r =>
      match probe s with
      | ProbeVersion => Some (stackChecked r (setProbe ProbeSettled s))
      | _ => None
      end
  | PrepareDone r =>
      match prep s with
      | OpPending => Some (prepared r (setPrep OpSettled s))
      | _ => None
      end
  | Filter _ =>
      match dl s with
      | SubActive => Some (completeHead s)
      | _ => None
      end
  | DownloadNext rest =>
      match dl s with
      | SubActive => Some (downloadNext rest s)
      | _ => None
      end
  | DownloadError err =>
      match dl s with
      | SubActive =>
          Some ((if errorSwapped s then handleBinaryDownloadError else downloadError)
                  err (setDl SubSettled s))
      | _ => None
      end
  | DownloadComplete =>
      match dl s with
      | SubActive => Some (downloadComplete (setDl SubSettled s))
      | _ => None
      end
  | ExecDone err stderr =>
      match verify s with
      | ExecPending _ => Some (execCallback err stderr (setVerify ExecSettled s))
      | _ => None
      end
  | BuildNext id rest =>
      match builder s with
      | SubActive => Some (buildNext id rest s)
      | _ => None
      end
  | BuildError err =>
      match builder s with
      | SubActive => buildError err (setBuilder SubSettled s)
      | _ => None
      end
  | RenameDone k err =>
      match nth_error (renames s) k with
      | Some rq => Some (renameCallback rq err (setRenames (dropNth k (renames s)) s))
      | None => None
      end
  | Unsubscribe => Some (unsubscribe s)
  end.

Fixpoint run (s : State) (inputs : list Input) : option State :=
  match inputs with
  | [] => Some s
  | i :: rest => match step s i with
                 | Some s' => run s' rest
                 | None => None
                 end
  end.

(** Lines 113-292 of the subscriber, after both validations: the probe, the
    write preparation and the download are started and [head] is sent.  When
    the observer was closed on the way, the Observable runs the returned
    cleanup function at once. *)
Definition start (s : State) : State :=
  let s := setProbe ProbeWhich s in
  let s := setPrep OpPending s in
  let s := setSubscriptions (subscriptions s ++ [SubDownload]) (setDl SubActive s) in
  let s := next (EvId "head") s in
  if closed s then cancelBuildOrDownloadPurescript s else s.

End Coordinator.

(** ** The subscriber *)

(** Before the subscriber has run: nothing delivered, nothing started;
    [stackCheckResult] is [{id: 'check-stack', path: 'stack', version: ''}]. *)
Definition idle : State :=
  mkState false [] (Some "stack") "" None None false false false []
          SubNone ProbeNone OpNone SubNone ExecNone SubNone [] 0.

(** [buildPurescript(__dirname, buildOptions).subscribe({error})]: [sync] is
    the error the builder reports while it is being subscribed to, if any. *)
Definition subscribeTmp (sync : option JsError) (s : State) : State :=
  match sync with
  | Some err => error err (setTmpSub SubSettled s)
  | None => setTmpSub SubActive s
  end.

Section Subscriber.
Context {H : Host}.

(** The function given to [new Observable(...)].  What it throws, the
    Observable passes to [observer.error]. *)
Definition subscriber (args : list JsVal) (sync : option JsError) : State :=
  match checkArgs args with
  | inl thrown => error thrown idle
  | inr r =>
      let s := subscribeTmp sync idle in
      match checkBinName r with
      | inl thrown => error thrown s
      | inr name => start s
      end
  end.

(** The configuration the callbacks of an accepted request close over. *)
Definition configure (args : list JsVal) : option Config :=
  match checkArgs args with
  | inl _ => None
  | inr r => match checkBinName r with
             | inl _ => None
             | inr name => Some (mkConfig r name)
             end
  end.

End Subscriber.

(** ** Reading the delivered notifications *)

Definition isNext (m : Emission) : bool :=
  match m with ONext _ => true | _ => false end.

(** A fallback trigger: one of [head:fail], [download-binary:fail] and
    [check-binary:fail], the events that carry an [error]. *)
Definition isFail (m : Emission) : bool :=
  match m with ONext (EvFail _ _) => true | _ => false end.

Definition isHeadComplete (m : Emission) : bool :=
  match m with ONext (EvId id) => String.eqb id "head:complete" | _ => false end.

Definition fallbackArmed (l : list Emission) : bool := existsb isFail l.

Definition inSubs (id : SubId) (l : list SubId) : bool :=
  existsb (fun x => match x, id with
                    | SubDownload, SubDownload | SubBuild, SubBuild => true
                    | _, _ => false
                    end) l.

Definition released (b : bool) (st : SubState) : SubState :=
  if b then match st with SubActive => SubReleased | _ => st end else st.

(** The calls the collaborators still owe to [startBuildIfNeeded]: one from
    the toolchain probe, one from the download or the verification. *)
Definition owed (s : State) : nat :=
  (match probe s with ProbeSettled | ProbeNone => 0 | _ => 1 end)
  + (match dl s, verify s with
     | SubActive, _ | _, ExecPending _ => 1
     | _, _ => 0
     end).

(** ** Invariants of the coordinator *)

(** Every [download-binary:fail] comes after a [head:complete], and no
    [head:complete] comes before a [head:fail]; [seen] tells whether a
    [head:complete] was met already. *)
Fixpoint headOrder (seen : bool) (l : list Emission) : bool :=
  match l with
  | [] => true
  | m :: l' =>
      match m with
      | ONext (EvFail id _) =>
          (if String.eqb id "download-binary:fail" then seen
           else if String.eqb id "head:fail" then negb seen else true)
          && headOrder seen l'
      | _ => headOrder (seen || isHeadComplete m) l'
      end
  end.

(** An error the download side raises by itself: tagged [head] or
    [download-binary]. *)
Definition tagIs (e : JsError) (tag : string) : bool :=
  match err_id e with Some id => String.eqb id tag | None => false end.

Definition isDownloadFailure (m : Emission) : bool :=
  match m with
  | OError e => tagIs e "head" || tagIs e "download-binary"
  | _ => true
  end.

(** A completion without a value. *)
Definition isBareComplete (m : Emission) : bool :=
  match m with
  | OComplete VUndefined => true
  | OComplete _ => false
  | _ => true
  end.

Section Invariant.
Context {H : Host}.
Variable c : Config.

(** What every pending rename was asked to do. *)
Definition renameOk (rq : RenameReq) : Prop :=
  oldPath rq = resolve (dir (req c)) initialBinName
  /\ newPath rq = binPath c
  /\ exists rest, carried rq = EvProgress "build:complete" rest.

(** The subscriptions: what is active is open and registered for release. *)
Definition InvSubs (s : State) : Prop :=
  (closed s = true -> dl s <> SubActive)
  /\ (closed s = true -> builder s <> SubActive)
  /\ (dl s = SubActive -> inSubs SubDownload (subscriptions s) = true)
  /\ (builder s = SubActive -> inSubs SubBuild (subscriptions s) = true)
  /\ (dl s = SubActive -> verify s = ExecNone)
  /\ probe s <> ProbeNone.

(** The decision barrier. *)
Definition InvBarrier (s : State) : Prop :=
  fired s <= 1
  /\ (startBuildCalled s = false -> fired s = 0)
  /\ (fired s = 0 -> startBuildCalled s = true -> owed s <= 1)
  /\ (fired s = 1 -> owed s = 0)
  /\ (builder s <> SubNone -> fired s = 1)
  /\ (renames s <> [] -> fired s = 1)
  /\ (isDifferentPlatform (req c) = true -> fired s = 0)
  /\ (isDifferentPlatform (req c) = true -> verify s = ExecNone)
  /\ (isDifferentPlatform (req c) = true ->
      startBuildCalled s = true -> probe s = ProbeSettled).

(** The delivered notifications. *)
Definition InvTrace (s : State) : Prop :=
  (startBuildCalled s = true -> probe s <> ProbeSettled ->
      fallbackArmed (out s) = true)
  /\ (fired s = 1 -> fallbackArmed (out s) = true)
  /\ (closed s = false -> forallb isNext (out s) = true)
  /\ (headCompleted s = true -> existsb isHeadComplete (out s) = true)
  /\ (existsb isHeadComplete (out s) = true -> headCompleted s = true)
  /\ (dl s = SubActive -> errorSwapped s = headCompleted s)
  /\ headOrder false (out s) = true
  /\ (fallbackArmed (out s) = false -> tmpSub s <> SubSettled ->
      forallb isDownloadFailure (out s) = true)
  /\ forallb isBareComplete (out s) = true.

(** The paths handed to [execFile] and [rename]. *)
Definition InvPaths (s : State) : Prop :=
  (forall f, verify s = ExecPending f -> f = binPath c)
  /\ Forall renameOk (renames s).

Definition Inv (s : State) : Prop :=
  InvSubs s /\ InvBarrier s /\ InvTrace s /\ InvPaths s.

End Invariant.

(** ** A host and requests for the examples *)

(** A Linux host.  [resolve] and [join] are right for an absolute directory
    and a plain file name, which is all the examples give them; the two
    printers only fill error messages. *)
Definition linuxHost : Host := {|
  process_platform := "linux";
  defaultVersion := "0.12.0";
  resolve := fun d name => d ++ "/" ++ name;
  join := fun d name => d ++ "/" ++ name;
  basename := fun path ext => path;
  inspect := fun _ => "<value>";
  inspectWithKind := fun _ => "<value>"
|}.

Definition plainArgs : list JsVal := [VStr "/tmp/x"].
Definition plainConfig : Config := mkConfig (mkRequest "/tmp/x" (VObj [])) "purs".

Definition androidOptions : JsVal := VObj [("platform", VStr "android")].
Definition androidArgs : list JsVal := [VStr "/tmp/x"; androidOptions].
Definition androidConfig : Config := mkConfig (mkRequest "/tmp/x" androidOptions) "purs".

Definition slashOptions : JsVal := VObj [("rename", VFun (fun _ => VStr "a/b"))].
Definition slashArgs : list JsVal := [VStr "/tmp/x"; slashOptions].

Definition emptyOptions : JsVal := VObj [("rename", VFun (fun _ => VStr ""))].
Definition emptyArgs : list JsVal := [VStr "/tmp/x"; emptyOptions].

Definition someError : JsError := mkError "Error" "failed" None None.
Definition unsupportedError : JsError :=
  mkError "Error" "Prebuilt `purs` binary is not provided for this platform"
          (Some "ERR_UNSUPPORTED_PLATFORM") None.

(** The invariant the specification gives for the result of [rename], in its
    words: a non-empty string free of path-separator and control characters. *)
Definition isSeparatorOrControl (ch : ascii) : bool :=
  Ascii.eqb ch "/" || Ascii.eqb ch "\" || Nat.ltb (nat_of_ascii ch) 32
  || Nat.eqb (nat_of_ascii ch) 127.

Definition violatesNameInvariant (v : JsVal) : bool :=
  match v with
  | VStr name =>
      Nat.eqb (String.length name) 0
      || existsb isSeparatorOrControl (list_ascii_of_string name)
  | _ => true
  end.

(** Runs of the plain request used in the examples. *)
Definition downloadedAndVerified : list Input :=
  [Filter "purescript/purs"; DownloadNext []; DownloadComplete; ExecDone None ""].

Definition unsupportedThenProbed : list Input :=
  [DownloadError unsupportedError; WhichDone (Some "/usr/bin/stack");
   StackDone (inr "1.9.1")].

(** ** More readings of the code *)

(** [pat] occurs somewhere in [s]. *)
Fixpoint occurs (pat s : string) : bool :=
  String.prefix pat s
  || match s with
     | EmptyString => false
     | String _ s' => occurs pat s'
     end.

(** After a notification that is not a [next] nothing follows. *)
Fixpoint endsAtTerminal (l : list Emission) : bool :=
  match l with
  | [] => true
  | m :: l' => if isNext m then endsAtTerminal l'
               else match l' with [] => true | _ => false end
  end.

(** How many times [head:complete] was delivered. *)
Definition headCompletes (l : list Emission) : nat :=
  List.length (filter isHeadComplete l).

(** An error that carries a phase identifier. *)
Definition hasPhaseId (m : Emission) : bool :=
  match m with
  | OError e => match err_id e with Some _ => true | None => false end
  | _ => true
  end.

Definition optionsOk (props : list (string * JsVal)) : Prop :=
  (lookupProp "rename" props = VUndefined
   \/ exists f, lookupProp "rename" props = VFun f)
  /\ lookupProp "filter" props = VUndefined
  /\ lookupProp "revision" props = VUndefined.

Definition renameOptions : JsVal :=
  VObj [("rename", VFun (fun name => VStr (name ++ ".bin")))].
Definition renameArgs : list JsVal := [VStr "/tmp/x"; renameOptions].

Definition filterOptions : JsVal := VObj [("filter", VNaN)].

(** What else the delivered notifications keep. *)
Definition InvMore (s : State) : Prop :=
  endsAtTerminal (out s) = true
  /\ headCompletes (out s) = (if headCompleted s then 1 else 0)
  /\ (tmpSub s <> SubSettled -> forallb hasPhaseId (out s) = true)
  /\ (builder s <> SubNone -> stackError s = None)
  /\ (forall p v, In (ONext (EvStack p v)) (out s) ->
        p = stackPath s /\ v = stackVersion s
        /\ stackError s = None /\ probe s = ProbeSettled).

(** [err.code === 'ERR_UNSUPPORTED_PLATFORM'] *)
Definition unsupportedPlatform (err : JsError) : bool :=
  match err_code err with
  | Some code => String.eqb code "ERR_UNSUPPORTED_PLATFORM"
  | None => false
  end.

(** The download path, as far as the delivered notifications show it. *)
Inductive DownloadPhase : Type :=
| Downloading      (* no [download-binary:complete] yet *)
| JustDownloaded   (* [download-binary:complete] was the last notification *)
| Downloaded       (* it was delivered, and something else after it *)
| Verifying        (* [check-binary] came right after it *)
| Verified.        (* [check-binary:complete] or [check-binary:fail] followed *)

(** Any notification but its own four leaves the phase, or ages
    [JustDownloaded]. *)
Definition ages (q : DownloadPhase) : DownloadPhase :=
  match q with JustDownloaded => Downloaded | _ => q end.

(** One notification moves the phase, or does not fit ([None]). *)
Definition downloadStep (q : DownloadPhase) (m : Emission) : option DownloadPhase :=
  let other := Some (ages q) in
  match m with
  | ONext (EvId id) =>
      if String.eqb id "download-binary:complete"
      then match q with Downloading => Some JustDownloaded | _ => None end
      else if String.eqb id "check-binary"
      then match q with JustDownloaded => Some Verifying | _ => None end
      else if String.eqb id "check-binary:complete"
      then match q with Verifying => Some Verified | _ => None end
      else other
  | ONext (EvFail id _) =>
      if String.eqb id "check-binary:fail"
      then match q with Verifying => Some Verified | _ => None end
      else other
  | _ => other
  end.

Fixpoint downloadPhase (q : DownloadPhase) (l : list Emission) : option DownloadPhase :=
  match l with
  | [] => Some q
  | m :: l' => match downloadStep q m with
               | Some q' => downloadPhase q' l'
               | None => None
               end
  end.

(** The phase the notifications show agrees with the collaborators. *)
Definition InvDownload (s : State) : Prop :=
  exists q, downloadPhase Downloading (out s) = Some q
    /\ (dl s = SubActive -> q = Downloading)
    /\ (forall file, verify s = ExecPending file -> closed s = false -> q = Verifying).

(** * Properties *)

Lemma cancel_fold (l : list SubId) (s : State) :
  fold_left (fun acc id => release id acc) l s
  = setBuilder (released (inSubs SubBuild l) (builder s))
      (setDl (released (inSubs SubDownload l) (dl s)) s).
Proof.
  revert s; induction l as [|id l IH]; intros s.
  - destruct s; reflexivity.
  - simpl fold_left. rewrite IH. clear IH.
    destruct s as [? ? ? ? ? ? ? ? ? ? ? ? ? d ? b ? ?].
    destruct id, d, b; simpl;
      destruct (inSubs SubBuild l), (inSubs SubDownload l); reflexivity.
Qed.

Lemma cancel_eq (s : State) :
  cancelBuildOrDownloadPurescript s
  = setBuilder (released (inSubs SubBuild (subscriptions s)) (builder s))
      (setDl (released (inSubs SubDownload (subscriptions s)) (dl s)) s).
Proof. apply cancel_fold. Qed.

Lemma inSubs_app (id : SubId) (l l' : list SubId) :
  inSubs id (l ++ l') = inSubs id l || inSubs id l'.
Proof. apply existsb_app. Qed.

Lemma fallbackArmed_app (l l' : list Emission) :
  fallbackArmed (l ++ l') = fallbackArmed l || fallbackArmed l'.
Proof. apply existsb_app. Qed.

Section Runs.
Context {H : Host}.
Variable c : Config.

Lemma run_app (s : State) (is1 is2 : list Input) :
  run c s (is1 ++ is2)
  = match run c s is1 with Some s' => run c s' is2 | None => None end.
Proof.
  revert s; induction is1 as [|i is1 IH]; intros s; simpl; auto.
  destruct (step c s i); auto.
Qed.

(** A property kept by every callback holds along every run. *)
Lemma run_invariant (P : State -> Prop) :
  (forall s i s', P s -> step c s i = Some s' -> P s') ->
  forall inputs s s', P s -> run c s inputs = Some s' -> P s'.
Proof.
  intros Hstep inputs; induction inputs as [|i inputs IH]; simpl; intros s s' HP Hrun.
  - injection Hrun as <-; exact HP.
  - destruct (step c s i) as [s1|] eqn:E; [|discriminate].
    eapply IH; [eapply Hstep; eauto | exact Hrun].
Qed.

End Runs.

Lemma headOrder_app (b : bool) (l l' : list Emission) :
  headOrder b (l ++ l')
  = headOrder b l && headOrder (b || existsb isHeadComplete l) l'.
Proof.
  revert b; induction l as [|m l IH]; intros b; simpl.
  - now rewrite orb_false_r.
  - destruct m as [[id|id e|p v|id r]| |]; simpl; rewrite IH; simpl;
      rewrite ?orb_false_r, ?andb_assoc, ?orb_assoc; reflexivity.
Qed.

Lemma Forall_dropNth {A : Type} (P : A -> Prop) (k : nat) (l : list A) :
  Forall P l -> Forall P (dropNth k l).
Proof.
  intros HF; revert k; induction HF as [|x l Hx HF IH]; intros [|k]; simpl;
    auto using Forall.
Qed.

(** ** Proof automation for the callbacks *)

Ltac unfold_handlers :=
  unfold prepared, stackChecked, handleBinaryDownloadError, downloadError,
    downloadNext, downloadComplete, execCallback, renameCallback, buildNext;
  unfold completeHead, startBuildIfNeeded; unfold startBuild;
  unfold startBuildBody; unfold sendError, unsubscribe, complete;
  unfold error, next; unfold close.

#[local] Arguments cancelBuildOrDownloadPurescript : simpl never.
#[local] Arguments inSubs : simpl never.
#[local] Arguments fallbackArmed : simpl never.
#[local] Arguments released : simpl never.
#[local] Arguments owed : simpl never.
#[local] Arguments headOrder : simpl never.
#[local] Arguments existsb : simpl never.
#[local] Arguments forallb : simpl never.
#[local] Arguments initialBinName : simpl never.
#[local] Arguments binPath : simpl never.
#[local] Arguments InvSubs : simpl never.
#[local] Arguments InvBarrier : simpl never.
#[local] Arguments InvTrace : simpl never.
#[local] Arguments InvPaths : simpl never.

(* case analysis on the innermost scrutinee *)
Ltac innermost x :=
  lazymatch x with
  | context [match _ with _ => _ end] => fail
  | _ => idtac
  end.
Ltac split_goal :=
  match goal with
  | |- context [match ?x with _ => _ end] => innermost x; destruct x eqn:?
  end.
Ltac split_in H :=
  match type of H with
  | context [match ?x with _ => _ end] => innermost x; destruct x eqn:?
  end.
Ltac split_hyp :=
  match goal with
  | H : context [match ?x with _ => _ end] |- _ => innermost x; destruct x eqn:?
  end.

Ltac use_hyps :=
  repeat match goal with
  | H : False |- _ => destruct H
  | H : _ /\ _ |- _ => destruct H
  | H : _ && _ = true |- _ => apply andb_prop in H
  | H : negb _ = true |- _ => apply negb_true_iff in H
  | H : ?a = ?a -> _ |- _ => specialize (H eq_refl)
  | H : ?P -> _ |- _ =>
      match type of P with Prop => idtac end;
      first [ let HP := fresh in assert (HP : P) by (clear H; first [assumption | congruence | lia]); specialize (H HP); clear HP
            | let HN := fresh in assert (HN : ~ P) by (clear H; intro; first [congruence | lia]); clear H HN ]
  end.

Ltac open_step Hs :=
  unfold step, buildError in Hs; cbn in Hs; try discriminate;
  repeat (split_in Hs; try discriminate);
  injection Hs as <-.

Ltac branches :=
  unfold_handlers; cbn;
  repeat (first [rewrite cancel_eq | split_goal]; cbn).

Ltac tidy :=
  rewrite ?headOrder_app, ?fallbackArmed_app, ?existsb_app, ?forallb_app, ?inSubs_app in *;
  cbn [orb andb negb] in *;
  rewrite ?orb_true_r, ?orb_false_r, ?andb_true_r in *.

Ltac split_subs :=
  repeat match goal with
  | |- context [if inSubs ?a ?b then _ else _] => destruct (inSubs a b) eqn:?
  | H : context [if inSubs ?a ?b then _ else _] |- _ => destruct (inSubs a b) eqn:?
  end.

Ltac conjuncts :=
  repeat match goal with H : _ /\ _ |- _ => destruct H end.

Ltac nonempty_renames :=
  match goal with
  | H : nth_error ?l ?k = Some _ |- _ =>
      assert (l <> []) by (let E := fresh in intro E; rewrite E in H; destruct k; discriminate)
  | _ => idtac
  end.

Ltac carried_progress :=
  match goal with
  | H : nth_error ?l ?k = Some ?r, HP : InvPaths _ _ |- _ =>
      let Hr := fresh in
      let rest := fresh "rest" in
      let E := fresh in
      pose proof (proj1 (Forall_forall _ _) (proj2 HP) r (nth_error_In _ _ H)) as Hr;
      destruct Hr as (_ & _ & rest & E); rewrite E in *
  | _ => idtac
  end.

Ltac intro_goal := intros; try (match goal with |- _ <> _ => intro end); subst.

Section InvProofs.
Context {H : Host}.
Variable c : Config.

Lemma step_InvSubs s i s' : InvSubs s -> step c s i = Some s' -> InvSubs s'.
Proof.
  intros HI Hs. destruct s.
  destruct i; open_step Hs.
  all: branches.
  all: unfold InvSubs in *; cbn in *; tidy; unfold released in *.
  all: conjuncts; repeat split; try assumption.
  all: intro_goal; try congruence.
  all: repeat split_hyp; try congruence.
  all: repeat split_goal; try congruence.
  all: use_hyps; congruence.
Qed.

Lemma step_InvBarrier s i s' :
  InvSubs s -> InvBarrier c s -> step c s i = Some s' -> InvBarrier c s'.
Proof.
  intros HS HI Hs. destruct s.
  destruct i; open_step Hs.
  all: branches.
  all: nonempty_renames; unfold InvBarrier, InvSubs in *; cbn in *; tidy;
    unfold released in *.
  all: conjuncts; repeat split; try assumption.
  all: intro_goal; try congruence; try lia.
  all: use_hyps; try congruence; try lia.
  all: unfold owed in *; cbn in *; split_subs; repeat split_hyp;
    try congruence; try lia.
  all: repeat split_goal; try congruence; try lia.
  all: use_hyps; try congruence; lia.
Qed.

Lemma step_InvTrace s i s' :
  InvSubs s -> InvBarrier c s -> InvPaths c s -> InvTrace s ->
  step c s i = Some s' -> InvTrace s'.
Proof.
  intros HS HB HP HI Hs. destruct s.
  destruct i; open_step Hs.
  all: branches.
  all: carried_progress; clear HP.
  all: nonempty_renames.
  all: unfold InvTrace, InvSubs in *;
    destruct HB as (_ & _ & _ & _ & HB1 & HB2 & _); cbn in *; tidy;
    unfold released in *.
  all: conjuncts; repeat split; try assumption.
  all: intro_goal; try congruence.
  all: use_hyps; try congruence.
  all: split_subs; use_hyps; try congruence.
  all: repeat (split_hyp; try congruence).
  all: try (match goal with |- context [existsb isHeadComplete ?o] =>
                 destruct (existsb isHeadComplete o) eqn:? end;
                 use_hyps; try congruence).
  all: repeat match goal with
                 | E : _ = true |- _ => rewrite E in *
                 | E : _ = false |- _ => rewrite E in *
                 end; try reflexivity; try congruence.
Qed.

Lemma step_InvPaths s i s' :
  InvPaths c s -> step c s i = Some s' -> InvPaths c s'.
Proof.
  intros HI Hs. destruct s.
  destruct i; open_step Hs.
  all: branches.
  all: unfold InvPaths in *; cbn in *.
  all: conjuncts; repeat split; try assumption.
  all: intro_goal; try congruence.
  all: try solve [ apply Forall_dropNth; assumption ].
  all: apply Forall_app; split; [assumption | constructor; [|constructor]].
  all: repeat split; cbn.
  all: match goal with E : String.eqb _ _ = true |- _ => apply String.eqb_eq in E; subst end.
  all: eauto.
Qed.
End InvProofs.

Section Reach.
Context {H : Host}.
Variable c : Config.

Lemma step_Inv (s : State) (i : Input) (s' : State) :
  Inv c s -> step c s i = Some s' -> Inv c s'.
Proof.
  intros (HS & HB & HT & HP) Hs; split; [|split; [|split]].
  - eapply step_InvSubs; eauto.
  - eapply step_InvBarrier; eauto.
  - eapply step_InvTrace; eauto.
  - eapply step_InvPaths; eauto.
Qed.

(** The state the subscriber leaves behind for an accepted request. *)
Lemma start_accepted :
  start (subscribeTmp None idle)
  = mkState false [ONext (EvId "head")] (Some "stack") "" None None
            false false false [SubDownload]
            SubActive ProbeWhich OpPending SubActive ExecNone SubNone [] 0.
Proof. reflexivity. Qed.

(** The same when the builder refused the options while being subscribed to:
    its error is the only notification and the download is released. *)
Lemma start_refused (e : JsError) :
  start (subscribeTmp (Some e) idle)
  = mkState true [OError e] (Some "stack") "" None None
            false false false [SubDownload]
            SubSettled ProbeWhich OpPending SubReleased ExecNone SubNone [] 0.
Proof. reflexivity. Qed.

Lemma start_Inv (sync : option JsError) : Inv c (start (subscribeTmp sync idle)).
Proof.
  destruct sync as [e|]; [rewrite start_refused | rewrite start_accepted];
    unfold Inv, InvSubs, InvBarrier, InvTrace, InvPaths, owed; cbn;
    repeat split; intros; try congruence; try discriminate; try lia;
    try reflexivity; auto.
Qed.

Lemma run_Inv (inputs : list Input) (s s' : State) :
  Inv c s -> run c s inputs = Some s' -> Inv c s'.
Proof. apply run_invariant; intros; eapply step_Inv; eauto. Qed.

(** Once the subscription is closed, no callback delivers anything and the
    barrier stays as it is. *)
Lemma closed_step (s : State) (i : Input) (s' : State) :
  closed s = true -> step c s i = Some s' ->
  closed s' = true /\ out s' = out s /\ fired s' = fired s.
Proof.
  intros Hc Hs. destruct s. cbn in Hc; subst.
  destruct i; open_step Hs.
  all: branches.
  all: repeat split; reflexivity.
Qed.

Lemma closed_run (inputs : list Input) (s s' : State) :
  closed s = true -> run c s inputs = Some s' ->
  closed s' = true /\ out s' = out s /\ fired s' = fired s.
Proof.
  revert s; induction inputs as [|i inputs IH]; simpl; intros s Hc Hr.
  - injection Hr as <-; auto.
  - destruct (step c s i) as [s1|] eqn:E; [|discriminate].
    destruct (closed_step _ _ Hc E) as (Hc1 & Ho1 & Hf1).
    destruct (IH _ Hc1 Hr) as (? & ? & ?); repeat split; congruence.
Qed.



End Reach.

Section Accepted.
Context {H : Host}.

Lemma configure_inv (args : list JsVal) (c : Config) :
  configure args = Some c ->
  checkArgs args = inr (req c) /\ checkBinName (req c) = inr (binName c).
Proof.
  unfold configure. destruct (checkArgs args) as [e|r]; [discriminate|].
  destruct (checkBinName r) as [e|n] eqn:E; [discriminate|].
  intros [= <-]; auto.
Qed.

Lemma configure_subscriber (args : list JsVal) (c : Config) (sync : option JsError) :
  configure args = Some c ->
  subscriber args sync = start (subscribeTmp sync idle).
Proof.
  intros Hc; destruct (configure_inv _ Hc) as [E1 E2].
  unfold subscriber. now rewrite E1, E2.
Qed.

Lemma reach_Inv (args : list JsVal) (c : Config) (sync : option JsError)
      (inputs : list Input) (s : State) :
  configure args = Some c ->
  run c (subscriber args sync) inputs = Some s -> Inv c s.
Proof.
  intros Hc Hr. rewrite (configure_subscriber args sync Hc) in Hr.
  eapply run_Inv; [apply start_Inv | exact Hr].
Qed.

Lemma configure_renamed (args : list JsVal) (c : Config) :
  configure args = Some c -> renamed (req c) = VStr (binName c).
Proof.
  intros Hc; destruct (configure_inv _ Hc) as [_ E].
  unfold checkBinName in E. destruct (renamed (req c)); try discriminate.
  destruct (Nat.eqb (String.length s) 0); [discriminate|]. now injection E as <-.
Qed.

(** On the platform of the host the expected binary name is the one the
    builder produces. *)
Lemma native_defaultBinName (r : Request) :
  isDifferentPlatform r = false -> defaultBinName r = initialBinName.
Proof.
  unfold isDifferentPlatform, defaultBinName, initialBinName.
  destruct (truthy (getProp (options r) "platform")); simpl; auto.
  intros E; apply negb_false_iff in E.
  destruct (getProp (options r) "platform"); simpl in E; try discriminate.
  apply String.eqb_eq in E; now subst.
Qed.

End Accepted.

Section PathError.
Context {H : Host}.
Variable c : Config.

(** After [completeHead] has run, no callback reads [binaryPathError]. *)
Lemma step_ignores_binaryPathError (x : option JsError) (s : State) (i : Input) :
  headCompleted s = true ->
  match step c s i, step c (setBinaryPathError x s) i with
  | Some s', Some t' =>
      headCompleted s' = true
      /\ setBinaryPathError None t' = setBinaryPathError None s'
  | None, None => True
  | _, _ => False
  end.
Proof.
  intros Hh. destruct s. cbn in Hh; subst.
  destruct i; unfold step, buildError; cbn.
  all: branches.
  all: try exact I; try (split; reflexivity).
Qed.

Lemma same_but_binaryPathError (s t : State) :
  setBinaryPathError None t = setBinaryPathError None s ->
  t = setBinaryPathError (binaryPathError t) s.
Proof. destruct s, t; cbn; intros [= -> -> -> -> -> -> -> -> -> -> -> -> -> -> -> -> ->]; reflexivity. Qed.

Lemma run_ignores_binaryPathError (inputs : list Input) (x : option JsError) (s : State) :
  headCompleted s = true ->
  option_map out (run c (setBinaryPathError x s) inputs) = option_map out (run c s inputs)
  /\ option_map closed (run c (setBinaryPathError x s) inputs)
     = option_map closed (run c s inputs).
Proof.
  revert x s; induction inputs as [|i inputs IH]; intros x s Hh.
  - destruct s; split; reflexivity.
  - simpl. pose proof (step_ignores_binaryPathError x s i Hh) as Hstep.
    destruct (step c s i) as [s'|], (step c (setBinaryPathError x s) i) as [t'|];
      try contradiction; [|split; reflexivity].
    destruct Hstep as [Hh' E]. rewrite (same_but_binaryPathError E).
    apply IH; exact Hh'.
Qed.

End PathError.

Section Claims.
Context {H : Host}.


(** C9 (amended). A [rename] function whose result is not a string, or is the
    empty string, makes the subscriber reject the request: the only
    notification is an error (the one [checkBinName] throws, unless the
    builder had already refused the options), no progress event is delivered,
    and neither the probes nor the download were started. *)
Theorem bad_rename_is_rejected (args : list JsVal) (r : Request)
        (f : string -> JsVal) (sync : option JsError) :
  checkArgs args = inr r ->
  getProp (options r) "rename" = VFun f ->
  (forall name, f (defaultBinName r) <> VStr name) \/ f (defaultBinName r) = VStr "" ->
  exists thrown,
    checkBinName r = inl thrown
    /\ out (subscriber args sync)
       = [OError match sync with Some refused => refused | None => thrown end]
    /\ closed (subscriber args sync) = true
    /\ probe (subscriber args sync) = ProbeNone
    /\ prep (subscriber args sync) = OpNone
    /\ dl (subscriber args sync) = SubNone.
Proof.
  intros Ha Hf Hbad.
  assert (Hr : renamed r = f (defaultBinName r)) by (unfold renamed; now rewrite Hf).
  assert (Ht : exists thrown, checkBinName r = inl thrown).
  { unfold checkBinName. rewrite Hr.
    destruct Hbad as [Hn|He].
    - destruct (f (defaultBinName r)) eqn:E; try (eexists; reflexivity).
      exfalso; eapply Hn; reflexivity.
    - rewrite He. simpl. eexists; reflexivity. }
  destruct Ht as [thrown Ht]. exists thrown. split; [exact Ht|].
  unfold subscriber. rewrite Ha, Ht.
  destruct sync as [refused|]; repeat split; reflexivity.
Qed.

End Claims.


(** C9: a result with a path separator in it breaks the invariant the
    specification states, and the request is accepted all the same. *)
Lemma slash_rename_is_accepted :
  violatesNameInvariant (VStr "a/b") = true
  /\ out (subscriber (H:=linuxHost) slashArgs None) = [ONext (EvId "head")]
  /\ closed (subscriber (H:=linuxHost) slashArgs None) = false
  /\ dl (subscriber (H:=linuxHost) slashArgs None) = SubActive.
Proof. repeat split; reflexivity. Qed.

Lemma bad_rename_is_rejected_witness :
  exists thrown,
    checkBinName (H:=linuxHost) (mkRequest "/tmp/x" emptyOptions) = inl thrown
    /\ out (subscriber (H:=linuxHost) emptyArgs None) = [OError thrown]
    /\ closed (subscriber (H:=linuxHost) emptyArgs None) = true
    /\ probe (subscriber (H:=linuxHost) emptyArgs None) = ProbeNone
    /\ prep (subscriber (H:=linuxHost) emptyArgs None) = OpNone
    /\ dl (subscriber (H:=linuxHost) emptyArgs None) = SubNone.
Proof.
  apply (bad_rename_is_rejected (H:=linuxHost) emptyArgs
           (r:=mkRequest "/tmp/x" emptyOptions) (f:=fun _ => VStr "") None).
  - reflexivity.
  - reflexivity.
  - right; reflexivity.
Defined.

Section Claim10.
Context {H : Host}.

(** C10. When [prepareWrite] fails before the head milestone (no archive
    entry inspected yet) and the consumer is still subscribed, [head:complete]
    is delivered and then the preparation error tagged [download-binary],
    which closes the stream.  When it fails after the head milestone, nothing
    is delivered, and every later run delivers exactly what it delivers after
    a successful preparation: the error is never surfaced. *)
Theorem prepare_failure (c : Config) (s : State) (err : JsError) (s' : State) :
  step c s (PrepareDone (Some err)) = Some s' ->
  (closed s = false -> headCompleted s = false ->
     out s' = (out s ++ [ONext (EvId "head:complete");
                         OError (addId err "download-binary")])%list
     /\ closed s' = true)
  /\ (headCompleted s = true ->
      out s' = out s /\ closed s' = closed s
      /\ exists s0, step c s (PrepareDone None) = Some s0
           /\ forall more,
                option_map out (run c s' more) = option_map out (run c s0 more)
                /\ option_map closed (run c s' more)
                   = option_map closed (run c s0 more)).
Proof.
  intros Hs.
  assert (Ep : prep s = OpPending)
    by (unfold step in Hs; destruct (prep s); congruence).
  assert (Es : s' = prepared (Some err) (setPrep OpSettled s))
    by (unfold step in Hs; rewrite Ep in Hs; congruence).
  subst s'. clear Hs. split.
  - intros Hc Hh. destruct s; cbn in *; subst.
    unfold prepared, completeHead, sendError, error, next, close; cbn.
    rewrite cancel_eq; cbn. rewrite <- app_assoc. split; reflexivity.
  - intros Hh.
    assert (E : prepared (Some err) (setPrep OpSettled s)
                = setBinaryPathError (Some err) (setPrep OpSettled s)).
    { destruct s; cbn in *; subst. unfold prepared, completeHead; cbn.
      match goal with |- context [if ?b then _ else _] => destruct b end;
        reflexivity. }
    rewrite E. split; [destruct s; reflexivity|]. split; [destruct s; reflexivity|].
    exists (setPrep OpSettled s). split; [unfold step; now rewrite Ep|].
    intros more. apply run_ignores_binaryPathError. destruct s; exact Hh.
Qed.

End Claim10.

(** C10, at the plain request: the preparation fails first thing. *)
Lemma prepare_failure_witness :
  out (prepared (Some someError)
         (setPrep OpSettled (subscriber (H:=linuxHost) plainArgs None)))
  = [ONext (EvId "head"); ONext (EvId "head:complete");
     OError (addId someError "download-binary")]
  /\ closed (prepared (Some someError)
               (setPrep OpSettled (subscriber (H:=linuxHost) plainArgs None)))
     = true.
Proof.
  exact (proj1 (prepare_failure (H:=linuxHost) plainConfig
                  (subscriber (H:=linuxHost) plainArgs None) someError eq_refl)
               eq_refl eq_refl).
Defined.

Section ClaimsOnRuns.
Context {H : Host}.

(** C2 (amended). On a request for a foreign platform, a failing download
    ends the stream with that one error, tagged [head] when the failure comes
    before the head milestone and [download-binary] after it; nothing but
    progress events came before, nothing comes after, and the builder is never
    started. *)
Theorem foreign_download_failure (args : list JsVal) (sync : option JsError)
        (c : Config) (inputs : list Input) (s : State) (err : JsError) (s' : State) :
  configure args = Some c ->
  isDifferentPlatform (req c) = true ->
  run c (subscriber args sync) inputs = Some s ->
  step c s (DownloadError err) = Some s' ->
  out s' = (out s ++ [OError (addId err (if headCompleted s
                                         then "download-binary" else "head"))])%list
  /\ forallb isNext (out s) = true
  /\ closed s' = true
  /\ forall more s'', run c s' more = Some s'' ->
       out s'' = out s' /\ builder s'' = SubNone /\ fired s'' = 0.
Proof.
  intros Hc Hd Hr Hs.
  pose proof (reach_Inv _ _ _ Hc Hr) as HI.
  assert (Hr' : run c (subscriber args sync) (inputs ++ [DownloadError err]) = Some s')
    by (rewrite run_app, Hr; cbn [run]; now rewrite Hs).
  assert (Ed : dl s = SubActive)
    by (unfold step in Hs; destruct (dl s); congruence).
  destruct HI as ((HS1 & _) & _ & (_ & _ & HT3 & _ & _ & HT6 & _) & _).
  assert (Eo : closed s = false) by (destruct (closed s); auto; now elim HS1).
  assert (Es : s' = error (addId err (if headCompleted s then "download-binary" else "head"))
                          (setDl SubSettled s)).
  { unfold step in Hs; rewrite Ed in Hs. injection Hs as <-.
    rewrite (HT6 Ed). destruct (headCompleted s).
    - unfold handleBinaryDownloadError. now rewrite Hd.
    - unfold downloadError, sendError. rewrite Hd. cbn [negb].
      now rewrite andb_false_r. }
  assert (Ec : closed s' = true /\
               out s' = (out s ++ [OError (addId err (if headCompleted s
                                         then "download-binary" else "head"))])%list).
  { rewrite Es. destruct s; cbn in *; subst. unfold error, close; cbn.
    rewrite cancel_eq. split; reflexivity. }
  destruct Ec as [Ec Eout].
  split; [exact Eout|]. split; [exact (HT3 Eo)|]. split; [exact Ec|].
  intros more s'' Hm.
  assert (HI'' : Inv c s'') by
    (eapply run_Inv; [eapply reach_Inv; [exact Hc | exact Hr'] | exact Hm]).
  destruct HI'' as (_ & (_ & _ & _ & _ & HB5 & _ & HB7 & _) & _).
  split; [|split].
  - destruct (closed_run c more _ Ec Hm) as (_ & E & _); exact E.
  - destruct (builder s'') eqn:Eb; auto;
      (assert (fired s'' = 1) by (apply HB5; congruence));
      rewrite (HB7 Hd) in *; discriminate.
  - exact (HB7 Hd).
Qed.

(** C3. The body behind the decision barrier runs at most once; when it has
    run, the toolchain probe is settled, the download side is resolved (the
    download is no longer active and no verification is pending) and a
    fallback trigger was delivered; and once the subscription is closed,
    which is what the consumer's [unsubscribe] does, it never runs. *)
Theorem barrier_fires_once (args : list JsVal) (sync : option JsError)
        (c : Config) (inputs : list Input) (s : State) :
  configure args = Some c ->
  run c (subscriber args sync) inputs = Some s ->
  fired s <= 1
  /\ (fired s = 1 ->
      probe s = ProbeSettled /\ dl s <> SubActive
      /\ (forall file, verify s <> ExecPending file)
      /\ fallbackArmed (out s) = true)
  /\ (closed s = true ->
      forall more s', run c s more = Some s' -> fired s' = fired s).
Proof.
  intros Hc Hr.
  destruct (reach_Inv _ _ _ Hc Hr)
    as ((_ & _ & _ & _ & _ & HS6) & (HB1 & _ & _ & HB4 & _) & (_ & HT2 & _) & _).
  split; [exact HB1|]. split.
  - intros Hf. specialize (HB4 Hf). specialize (HT2 Hf). unfold owed in HB4.
    destruct (probe s), (dl s), (verify s); try discriminate;
      try (now elim HS6); repeat split; auto; congruence.
  - intros Hcl more s' Hm. now destruct (closed_run c more _ Hcl Hm) as (_ & _ & E).
Qed.


End ClaimsOnRuns.

Section Claim5.
Context {H : Host}.
Variable c : Config.


End Claim5.

Lemma isHeadComplete_In (l : list Emission) :
  existsb isHeadComplete l = true <-> In (ONext (EvId "head:complete")) l.
Proof.
  rewrite existsb_exists. split.
  - intros (m & Hin & Hm). destruct m as [[id| | |]| |]; try discriminate.
    apply String.eqb_eq in Hm. now subst.
  - intros Hin. eexists; split; [exact Hin | reflexivity].
Qed.

Lemma headOrder_at (b : bool) (pre post : list Emission) (id : string) (e : JsError) :
  headOrder b (pre ++ ONext (EvFail id e) :: post) = true ->
  (id = "download-binary:fail" -> b || existsb isHeadComplete pre = true)
  /\ (id = "head:fail" -> b || existsb isHeadComplete pre = false).
Proof.
  rewrite headOrder_app. intros Hh. apply andb_prop in Hh. destruct Hh as [_ Hh].
  cbn [headOrder] in Hh. apply andb_prop in Hh. destruct Hh as [Hh _].
  split; intros ->; cbn in Hh; [exact Hh | now apply negb_true_iff].
Qed.


Section Completion.
Context {H : Host}.
Variable c : Config.


End Completion.

Section ClaimsOnTraces.
Context {H : Host}.


(** C4 (amended). Every [download-binary:fail] comes after a
    [head:complete]; no [head:complete] comes before a [head:fail]; and once
    [completeHead] has run, [head:complete] has been delivered. *)
Theorem head_complete_order (args : list JsVal) (sync : option JsError)
        (c : Config) (inputs : list Input) (s : State) :
  configure args = Some c ->
  run c (subscriber args sync) inputs = Some s ->
  (forall pre e post,
     out s = (pre ++ ONext (EvFail "download-binary:fail" e) :: post)%list ->
     In (ONext (EvId "head:complete")) pre)
  /\ (forall pre e post,
        out s = (pre ++ ONext (EvFail "head:fail" e) :: post)%list ->
        ~ In (ONext (EvId "head:complete")) pre)
  /\ (headCompleted s = true -> In (ONext (EvId "head:complete")) (out s)).
Proof.
  intros Hc Hr.
  destruct (reach_Inv _ _ _ Hc Hr)
    as (_ & _ & (_ & _ & _ & HT4 & _ & _ & HT7 & _) & _).
  split; [|split].
  - intros pre e post E. rewrite E in HT7.
    apply isHeadComplete_In. exact (proj1 (headOrder_at _ _ _ _ _ HT7) eq_refl).
  - intros pre e post E Hin. rewrite E in HT7.
    apply isHeadComplete_In in Hin.
    pose proof (proj2 (headOrder_at _ _ _ _ _ HT7) eq_refl) as Hf.
    cbn in Hf. congruence.
  - intros Hh. apply isHeadComplete_In. exact (HT4 Hh).
Qed.


(** C6. On the builder's [build:complete] nothing is delivered yet: a rename
    of the builder's binary, the platform's default name under the
    destination, to the final path is requested, carrying the event.  While
    the consumer is subscribed, the callback of any pending rename delivers
    the carried [build:complete] event and completes the stream when the
    rename succeeded, and ends the stream with the error tagged [build] when
    it failed. *)
Theorem build_complete_renames (args : list JsVal) (sync : option JsError)
        (c : Config) (inputs : list Input) (s : State) :
  configure args = Some c ->
  run c (subscriber args sync) inputs = Some s ->
  (forall rest s1,
     step c s (BuildNext "build:complete" rest) = Some s1 ->
     out s1 = out s /\ closed s1 = closed s
     /\ renames s1
        = (renames s
           ++ [mkRename (resolve (dir (req c)) (defaultBinName (req c)))
                        (resolve (dir (req c)) (binName c))
                        (EvProgress "build:complete" rest)])%list)
  /\ (forall k rq,
        nth_error (renames s) k = Some rq -> closed s = false ->
        (exists rest, carried rq = EvProgress "build:complete" rest)
        /\ (forall s2,
              step c s (RenameDone k None) = Some s2 ->
              out s2 = (out s ++ [ONext (carried rq); OComplete VUndefined])%list
              /\ closed s2 = true)
        /\ (forall err s2,
              step c s (RenameDone k (Some err)) = Some s2 ->
              out s2 = (out s ++ [OError (addId err "build")])%list
              /\ closed s2 = true)).
Proof.
  intros Hc Hr.
  destruct (reach_Inv _ _ _ Hc Hr)
    as (_ & (_ & _ & _ & _ & HB5 & _ & HB7 & _) & _ & (_ & HP2)).
  split.
  - intros rest s1 Hs. unfold step in Hs.
    destruct (builder s) eqn:Eb; try discriminate. injection Hs as <-.
    assert (En : isDifferentPlatform (req c) = false).
    { destruct (isDifferentPlatform (req c)) eqn:Ed; [|reflexivity].
      assert (Hf : fired s = 1) by (apply HB5; congruence).
      rewrite (HB7 eq_refl) in Hf. discriminate. }
    rewrite (native_defaultBinName _ En).
    unfold buildNext. cbn [String.eqb Ascii.eqb Bool.eqb].
    destruct s; repeat split; reflexivity.
  - intros k rq Ek Ho.
    rewrite Forall_forall in HP2.
    destruct (HP2 rq (nth_error_In _ _ Ek)) as (_ & _ & Ecar).
    split; [exact Ecar|]. split.
    + intros s2 Hs. unfold step in Hs. rewrite Ek in Hs. injection Hs as <-.
      destruct s; cbn in Ho; subst.
      unfold renameCallback, complete, next, close; cbn.
      rewrite cancel_eq; cbn. rewrite <- app_assoc. split; reflexivity.
    + intros err s2 Hs. unfold step in Hs. rewrite Ek in Hs. injection Hs as <-.
      destruct s; cbn in Ho; subst.
      unfold renameCallback, sendError, error, close; cbn.
      rewrite cancel_eq; cbn. split; reflexivity.
Qed.

End ClaimsOnTraces.

(** ** The claims at concrete requests *)

Ltac by_running := vm_compute; reflexivity.



(** C2: no prebuilt binary exists for the foreign platform [android]; the
    error that ends the stream is tagged [head]. *)
Lemma android_failure_is_tagged_head :
  exists s,
    configure (H:=linuxHost) androidArgs = Some androidConfig
    /\ isDifferentPlatform (H:=linuxHost) (req androidConfig) = true
    /\ run (H:=linuxHost) androidConfig (subscriber (H:=linuxHost) androidArgs None)
           [DownloadError unsupportedError] = Some s
    /\ out s = [ONext (EvId "head"); OError (addId unsupportedError "head")]
    /\ err_id (addId unsupportedError "head") <> Some "download-binary".
Proof.
  eexists. split; [by_running|]. split; [by_running|]. split; [by_running|].
  split; [reflexivity | discriminate].
Qed.

Lemma foreign_download_failure_witness :
  exists s s',
    run (H:=linuxHost) androidConfig (subscriber (H:=linuxHost) androidArgs None)
        [Filter "purescript/purs"] = Some s
    /\ step (H:=linuxHost) androidConfig s (DownloadError someError) = Some s'
    /\ out s' = (out s ++ [OError (addId someError "download-binary")])%list.
Proof.
  eexists; eexists. split; [by_running|]. split; [by_running|].
  refine (proj1 (foreign_download_failure (H:=linuxHost) androidArgs None
                   (c:=androidConfig) [Filter "purescript/purs"] someError
                   _ _ _ _));
    by_running.
Defined.

(** C3, on the run that falls back to the build. *)
Lemma barrier_fires_once_witness :
  exists s,
    run (H:=linuxHost) plainConfig (subscriber (H:=linuxHost) plainArgs None)
        unsupportedThenProbed = Some s
    /\ fired s <= 1.
Proof.
  eexists. split; [by_running|].
  refine (proj1 (barrier_fires_once (H:=linuxHost) plainArgs None
                   (c:=plainConfig) unsupportedThenProbed _ _));
    by_running.
Defined.

(** C4: the platform is unsupported; the fallback is armed by [head:fail]
    and the builder is started, and no [head:complete] was ever delivered. *)
Lemma build_starts_without_head_complete :
  exists s,
    run (H:=linuxHost) plainConfig (subscriber (H:=linuxHost) plainArgs None)
        unsupportedThenProbed = Some s
    /\ out s = [ONext (EvId "head");
                ONext (EvFail "head:fail" (addId unsupportedError "head"));
                ONext (EvStack (Some "/usr/bin/stack") "1.9.1");
                ONext (EvId "check-stack:complete")]
    /\ builder s = SubActive
    /\ ~ In (ONext (EvId "head:complete")) (out s).
Proof.
  eexists. split; [by_running|]. split; [reflexivity|]. split; [reflexivity|].
  intros Hin; cbn in Hin.
  repeat (destruct Hin as [Hin|Hin]; [discriminate Hin|]). exact Hin.
Qed.

Lemma head_complete_order_witness :
  exists s,
    run (H:=linuxHost) plainConfig (subscriber (H:=linuxHost) plainArgs None)
        unsupportedThenProbed = Some s
    /\ forall pre e post,
         out s = (pre ++ ONext (EvFail "head:fail" e) :: post)%list ->
         ~ In (ONext (EvId "head:complete")) pre.
Proof.
  eexists. split; [by_running|].
  refine (proj1 (proj2 (head_complete_order (H:=linuxHost) plainArgs None
                          (c:=plainConfig) unsupportedThenProbed _ _)));
    by_running.
Defined.


(** C6: the builder of the fallback run reports [build:complete]. *)
Lemma build_complete_renames_witness :
  exists s,
    run (H:=linuxHost) plainConfig (subscriber (H:=linuxHost) plainArgs None)
        unsupportedThenProbed = Some s
    /\ forall rest s1,
         step (H:=linuxHost) plainConfig s (BuildNext "build:complete" rest) = Some s1 ->
         out s1 = out s /\ closed s1 = closed s
         /\ renames s1
            = (renames s
               ++ [mkRename "/tmp/x/purs" "/tmp/x/purs"
                            (EvProgress "build:complete" rest)])%list.
Proof.
  eexists. split; [by_running|].
  refine (proj1 (build_complete_renames (H:=linuxHost) plainArgs None
                   (c:=plainConfig) unsupportedThenProbed _ _));
    by_running.
Defined.



(** ** The argument checks of the subscriber *)

Section ArgumentChecks.
Context {H : Host}.

Lemma typeof_function (v : JsVal) :
  String.eqb (typeof v) "function" = true -> exists f, v = VFun f.
Proof. destruct v; try discriminate. eauto. Qed.

Lemma isUndefined_spec (v : JsVal) : isUndefined v = true <-> v = VUndefined.
Proof. destruct v; split; intros E; try discriminate; reflexivity. Qed.

Lemma checkUnsupported_none (props : list (string * JsVal)) :
  checkUnsupported unsupportedOptions (VObj props) = None
  <-> lookupProp "filter" props = VUndefined
      /\ lookupProp "revision" props = VUndefined.
Proof.
  unfold unsupportedOptions; cbn [checkUnsupported getProp].
  destruct (lookupProp "filter" props) eqn:Ef; cbn;
    try (split; [discriminate | intros [E _]; discriminate]).
  destruct (lookupProp "revision" props) eqn:Er; cbn;
    try (split; [discriminate | intros [_ E]; discriminate]).
  split; auto.
Qed.

(** X1. What [checkArgs] accepts: a non-empty string alone, or followed by
    [undefined], or followed by a plain object whose [rename] is absent or a
    function and whose [filter] and [revision] are absent; the request keeps
    the directory and the options ([{}] when none were given). *)
Theorem checkArgs_accepts (args : list JsVal) (r : Request) :
  checkArgs args = inr r
  <-> dir r <> ""
      /\ (args = [VStr (dir r)] /\ options r = VObj []
          \/ args = [VStr (dir r); VUndefined] /\ options r = VObj []
          \/ exists props,
               args = [VStr (dir r); VObj props] /\ options r = VObj props
               /\ optionsOk props).
Proof.
  destruct r as [d o]. cbn [dir options]. split.
  - unfold checkArgs.
    destruct args as [|a [|b [|x rest]]]; cbn [List.length Nat.eqb negb andb nth];
      try discriminate.
    + destruct a; try discriminate.
      destruct s as [|ch s']; cbn; [discriminate|].
      intros [= <- <-]. split; [discriminate|]. left; auto.
    + destruct a; try discriminate.
      destruct s as [|ch s']; cbn [String.length Nat.eqb]; [discriminate|].
      destruct b; cbn [isUndefined isPlainObj negb]; try discriminate.
      * cbn. intros [= <- <-]. split; [discriminate|]. right; left; auto.
      * destruct (negb (isUndefined (getProp (VObj props) "rename"))
                  && negb (String.eqb (typeof (getProp (VObj props) "rename")) "function"))
          eqn:Er; [discriminate|].
        destruct (checkUnsupported unsupportedOptions (VObj props)) eqn:Eu; [discriminate|].
        intros [= <- <-]. split; [discriminate|]. right; right.
        exists props. split; [reflexivity|]. split; [reflexivity|].
        apply checkUnsupported_none in Eu. split; [|exact Eu].
        cbn [getProp] in Er. apply andb_false_iff in Er.
        destruct Er as [Er|Er]; apply negb_false_iff in Er.
        -- left. now apply isUndefined_spec.
        -- right. now apply typeof_function.
  - intros (Hd & [[-> ->]|[[-> ->]|(props & -> & -> & Hr & Hu)]]);
      unfold checkArgs; cbn [List.length Nat.eqb negb andb nth isUndefined];
      (destruct d as [|ch d']; [now elim Hd|]); cbn [String.length Nat.eqb];
      try reflexivity.
    cbn [isPlainObj negb getProp].
    assert (Er : negb (isUndefined (lookupProp "rename" props))
                 && negb (String.eqb (typeof (lookupProp "rename" props)) "function")
                 = false).
    { destruct Hr as [->|[f ->]]; reflexivity. }
    rewrite Er.
    rewrite (proj2 (checkUnsupported_none props) Hu). reflexivity.
Qed.

(** X3. What [checkArgs] throws is a fresh error without [code] or [id]; it
    is a [RangeError] exactly when the number of arguments is neither 1 nor
    2, whatever the arguments are, and a [TypeError] or an [Error]
    otherwise. *)
Theorem checkArgs_error_kind (args : list JsVal) (thrown : JsError) :
  checkArgs args = inl thrown ->
  err_code thrown = None /\ err_id thrown = None
  /\ (err_name thrown = "RangeError"
      <-> List.length args <> 1 /\ List.length args <> 2)
  /\ (err_name thrown = "RangeError" \/ err_name thrown = "TypeError"
      \/ err_name thrown = "Error").
Proof.
  unfold checkArgs.
  destruct args as [|a [|b [|x rest]]]; cbn [List.length Nat.eqb negb andb nth].
  - intros [= <-]; cbn. repeat split; auto; intros; try lia; try discriminate.
  - destruct a; try (intros [= <-]; cbn; repeat split; auto;
                     try (intros [? ?]; congruence); discriminate).
    destruct (Nat.eqb (String.length s) 0); intros [= <-]; cbn;
      repeat split; auto; try (intros [? ?]; congruence); discriminate.
  - assert (Hgen : forall e : JsError,
               err_code e = None -> err_id e = None ->
               err_name e = "TypeError" \/ err_name e = "Error" ->
               err_code e = None /\ err_id e = None
               /\ (err_name e = "RangeError" <-> 2 <> 1 /\ 2 <> 2)
               /\ (err_name e = "RangeError" \/ err_name e = "TypeError"
                   \/ err_name e = "Error")).
    { intros e Hc Hi Hn. split; [exact Hc|]. split; [exact Hi|]. split.
      - split.
        + intros E; destruct Hn as [Hn|Hn]; rewrite Hn in E; discriminate.
        + intros [_ E]; now elim E.
      - tauto. }
    destruct a; try (intros [= <-]; apply Hgen; cbn; auto).
    destruct (Nat.eqb (String.length s) 0); [intros [= <-]; apply Hgen; cbn; auto|].
    destruct (negb (isPlainObj _)); [intros [= <-]; apply Hgen; cbn; auto|].
    destruct (_ && _); [intros [= <-]; apply Hgen; cbn; auto|].
    destruct (checkUnsupported _ _) as [e|] eqn:Eu; [|discriminate].
    intros [= <-]. unfold unsupportedOptions in Eu. cbn [checkUnsupported] in Eu.
    destruct (negb (isUndefined _)) in Eu; [injection Eu as <-; apply Hgen; cbn; auto|].
    destruct (negb (isUndefined _)) in Eu; [injection Eu as <-; apply Hgen; cbn; auto|].
    discriminate.
  - intros [= <-]; cbn. repeat split; auto; intros; try lia; try discriminate.
Qed.

(** X4. A second argument [undefined] is the same as none: the default
    [{}] takes its place and passes every check on the options. *)
Theorem undefined_options_are_none (d : JsVal) (sync : option JsError) :
  checkArgs [d; VUndefined] = checkArgs [d]
  /\ subscriber [d; VUndefined] sync = subscriber [d] sync.
Proof.
  assert (E : checkArgs [d; VUndefined] = checkArgs [d]).
  { unfold checkArgs; cbn [List.length Nat.eqb negb andb nth isUndefined].
    destruct d; reflexivity. }
  split; [exact E|]. unfold subscriber. now rewrite E.
Qed.

(** X5. With a usable directory and [rename], an options object that sets
    [filter] or [revision] is refused with an [Error]; when [filter] is set
    it is the one the message names, whatever [revision] is. *)
Theorem unsupported_option_is_refused (d : string) (props : list (string * JsVal)) :
  d <> "" ->
  lookupProp "rename" props = VUndefined
  \/ (exists f, lookupProp "rename" props = VFun f) ->
  lookupProp "filter" props <> VUndefined
  \/ lookupProp "revision" props <> VUndefined ->
  exists thrown,
    checkArgs [VStr d; VObj props] = inl thrown
    /\ err_name thrown = "Error"
    /\ (lookupProp "filter" props <> VUndefined ->
        err_message thrown
        = "`filter` option is not supported, but "
            ++ inspect (lookupProp "filter" props) ++ " was provided to it.").
Proof.
  intros Hd Hr Hu.
  unfold checkArgs; cbn [List.length Nat.eqb negb andb nth].
  destruct d as [|ch d']; [now elim Hd|]. cbn [String.length Nat.eqb].
  cbn [isUndefined isPlainObj negb getProp].
  assert (Er : negb (isUndefined (lookupProp "rename" props))
               && negb (String.eqb (typeof (lookupProp "rename" props)) "function")
               = false)
    by (destruct Hr as [->|[f ->]]; reflexivity).
  rewrite Er. unfold unsupportedOptions. cbn [checkUnsupported getProp].
  destruct (isUndefined (lookupProp "filter" props)) eqn:Ef; cbn [negb].
  - apply isUndefined_spec in Ef.
    destruct (isUndefined (lookupProp "revision" props)) eqn:Ev; cbn [negb].
    + apply isUndefined_spec in Ev. destruct Hu as [Hu|Hu]; contradiction.
    + eexists. split; [reflexivity|]. split; [reflexivity|]. intros Hf; contradiction.
  - eexists. split; [reflexivity|]. split; [reflexivity|]. reflexivity.
Qed.

End ArgumentChecks.

Section Rejected.
Context {H : Host}.


End Rejected.

(** ** Re-tagging the builder's identifiers *)

Lemma prefix_app (pat rest : string) : String.prefix pat (pat ++ rest) = true.
Proof.
  induction pat as [|ch pat IH]; cbn; [now destruct rest|].
  destruct (ascii_dec ch ch); [exact IH | congruence].
Qed.

Lemma substring_all (s : string) : substring 0 (String.length s) s = s.
Proof. induction s as [|ch s IH]; cbn; [reflexivity | now rewrite IH]. Qed.

Lemma substring_skip (pat rest : string) :
  substring (String.length pat) (String.length (pat ++ rest) - String.length pat)
            (pat ++ rest) = rest.
Proof.
  induction pat as [|ch pat IH]; cbn [String.length append substring].
  - rewrite Nat.sub_0_r. apply substring_all.
  - exact IH.
Qed.

Lemma replaceFirst_eq (pat rep s : string) :
  replaceFirst pat rep s
  = if String.prefix pat s
    then rep ++ substring (String.length pat) (String.length s - String.length pat) s
    else match s with
         | EmptyString => EmptyString
         | String ch s' => String ch (replaceFirst pat rep s')
         end.
Proof. destruct s; reflexivity. Qed.

(** X10. [replaceFirst] replaces the first occurrence and only that one: when
    [pat] does not start at any position inside [pre], the text before it and
    all the text after it are kept as they are. *)
Theorem replaceFirst_first_occurrence (pat rep pre post : string) :
  (forall k, k < String.length pre ->
             String.prefix pat (substring k (String.length (pre ++ pat ++ post) - k)
                                          (pre ++ pat ++ post)) = false) ->
  replaceFirst pat rep (pre ++ pat ++ post) = pre ++ rep ++ post.
Proof.
  induction pre as [|ch pre IH]; intros Hfirst.
  - cbn [append]. rewrite replaceFirst_eq, prefix_app. now rewrite substring_skip.
  - assert (H0 : String.prefix pat (String ch pre ++ pat ++ post) = false).
    { specialize (Hfirst 0 ltac:(cbn; lia)).
      rewrite Nat.sub_0_r in Hfirst. now rewrite substring_all in Hfirst. }
    rewrite replaceFirst_eq, H0. cbn [append]. f_equal. apply IH. intros k Hk.
    specialize (Hfirst (S k) ltac:(cbn; lia)).
    cbn [append String.length substring Nat.sub] in Hfirst. exact Hfirst.
Qed.

Lemma replaceFirst_absent (pat rep s : string) :
  occurs pat s = false -> replaceFirst pat rep s = s.
Proof.
  induction s as [|ch s IH]; intros Ho.
  - cbn [occurs] in Ho. apply orb_false_iff in Ho. destruct Ho as [Ho _].
    now rewrite replaceFirst_eq, Ho.
  - cbn [occurs] in Ho. apply orb_false_iff in Ho. destruct Ho as [Hp Ho].
    rewrite replaceFirst_eq, Hp. now rewrite (IH Ho).
Qed.

(** X11. The identifiers of the builder: one that starts with [download]
    has that word turned into [download-source], the rest kept; one in which
    [download] does not occur is forwarded as it is. *)
Theorem retagSource_spec :
  (forall rest, retagSource ("download" ++ rest) = "download-source" ++ rest)
  /\ (forall id, occurs "download" id = false -> retagSource id = id).
Proof.
  split.
  - intros rest. unfold retagSource.
    rewrite replaceFirst_eq, prefix_app. now rewrite substring_skip.
  - intros id. apply replaceFirst_absent.
Qed.

(** ** Teardown and the validation subscription *)

(** X12. The cleanup function and the consumer's [unsubscribe] can be run
    any number of times: a second run changes nothing.  The cleanup touches
    nothing but the two subscriptions, and leaves neither of them active when
    it is registered. *)
Theorem teardown_is_idempotent (s : State) :
  cancelBuildOrDownloadPurescript (cancelBuildOrDownloadPurescript s)
  = cancelBuildOrDownloadPurescript s
  /\ unsubscribe (unsubscribe s) = unsubscribe s
  /\ setBuilder (builder s) (setDl (dl s) (cancelBuildOrDownloadPurescript s)) = s
  /\ (inSubs SubDownload (subscriptions s) = true ->
      dl (cancelBuildOrDownloadPurescript s) <> SubActive)
  /\ (inSubs SubBuild (subscriptions s) = true ->
      builder (cancelBuildOrDownloadPurescript s) <> SubActive).
Proof.
  assert (Hc : forall t, cancelBuildOrDownloadPurescript
                           (cancelBuildOrDownloadPurescript t)
                         = cancelBuildOrDownloadPurescript t).
  { intros t. rewrite !cancel_eq. destruct t as [? ? ? ? ? ? ? ? ? subs ? ? ? d ? b ? ?].
    cbn. unfold released.
    destruct (inSubs SubBuild subs), (inSubs SubDownload subs), d, b; reflexivity. }
  split; [apply Hc|]. split; [|split; [|split]].
  - unfold unsubscribe, close.
    destruct (closed s) eqn:E; [now rewrite E|].
    rewrite cancel_eq.
    destruct s as [? ? ? ? ? ? ? ? ? subs ? ? ? d ? b ? ?]; reflexivity.
  - rewrite cancel_eq. destruct s; reflexivity.
  - intros Hin. rewrite cancel_eq.
    destruct s as [? ? ? ? ? ? ? ? ? subs ? ? ? d ? b ? ?]; cbn in *.
    rewrite Hin. unfold released. destruct d; discriminate.
  - intros Hin. rewrite cancel_eq.
    destruct s as [? ? ? ? ? ? ? ? ? subs ? ? ? d ? b ? ?]; cbn in *.
    rewrite Hin. unfold released. destruct b; discriminate.
Qed.

Section Validation2.
Context {H : Host}.
Variable c : Config.

(** X13. An error of the builder's validation of the options reaches a
    subscribed consumer as it is, with no phase identifier added, and ends
    the stream; a second one cannot arrive, and none can once the
    [setImmediate] callback has released that subscription. *)
Theorem validation_error_is_forwarded (s : State) (err : JsError) (s' : State) :
  step c s (TmpError err) = Some s' ->
  (closed s = false ->
   out s' = (out s ++ [OError err])%list /\ closed s' = true)
  /\ (closed s = true -> out s' = out s)
  /\ (forall err2, step c s' (TmpError err2) = None)
  /\ (forall s1 err2, step c s TmpImmediate = Some s1 ->
                      step c s1 (TmpError err2) = None).
Proof.
  intros Hs. unfold step in Hs. destruct (tmpSub s) eqn:Et; try discriminate.
  injection Hs as <-. split; [|split; [|split]].
  - intros Ho. destruct s; cbn in *; subst. unfold error, close.
    cbn. rewrite cancel_eq. split; reflexivity.
  - intros Ho. destruct s; cbn in *; subst. reflexivity.
  - intros err2. unfold step, error, close.
    destruct s; cbn in *; subst.
    match goal with |- context [if ?b then _ else _] => destruct b end;
      cbn; rewrite ?cancel_eq; reflexivity.
  - intros s1 err2 Hi. unfold step in Hi. rewrite Et in Hi. injection Hi as <-.
    destruct s; reflexivity.
Qed.

End Validation2.

(** ** The shape of the delivered notifications *)

Lemma endsAtTerminal_app (l l' : list Emission) :
  forallb isNext l = true -> endsAtTerminal (l ++ l') = endsAtTerminal l'.
Proof.
  induction l as [|m l IH]; cbn; [reflexivity|].
  intros Hn. apply andb_prop in Hn. destruct Hn as [Hm Hl].
  rewrite Hm. exact (IH Hl).
Qed.

Lemma headCompletes_app (l l' : list Emission) :
  headCompletes (l ++ l') = headCompletes l + headCompletes l'.
Proof. unfold headCompletes. now rewrite filter_app, length_app. Qed.

Lemma endsAtTerminal_at (pre post : list Emission) (m : Emission) :
  endsAtTerminal (pre ++ m :: post) = true -> isNext m = false ->
  post = [] /\ forallb isNext pre = true.
Proof.
  induction pre as [|x pre IH]; cbn [app endsAtTerminal forallb]; intros He Hm.
  - rewrite Hm in He. destruct post; [auto|discriminate].
  - destruct (isNext x) eqn:Ex.
    + destruct (IH He Hm) as [Ep En]. split; [exact Ep|].
      change (isNext x && forallb isNext pre = true). now rewrite Ex.
    + destruct (pre ++ m :: post)%list eqn:E; [|discriminate].
      destruct pre; discriminate.
Qed.

#[local] Arguments endsAtTerminal : simpl never.
#[local] Arguments headCompletes : simpl never.
#[local] Arguments InvMore : simpl never.

Section MoreInvariants.
Context {H : Host}.
Variable c : Config.

Lemma step_InvMore (s : State) (i : Input) (s' : State) :
  Inv c s -> InvMore s -> step c s i = Some s' -> InvMore s'.
Proof.
  intros (HS & HB & HT & HP) HI Hs. destruct s.
  destruct i; open_step Hs.
  all: branches.
  all: carried_progress; clear HP.
  all: unfold InvMore, InvSubs in *;
    destruct HB as (HB1 & HB2 & HB3 & HB4 & HB5 & _);
    destruct HT as (_ & _ & HT3 & _ & HT5 & _);
    destruct HS as (HS1 & _ & _ & _ & _ & HS6);
    cbn in *.
  all: rewrite <- ?app_assoc, ?headCompletes_app, ?forallb_app in *.
  all: conjuncts; repeat split; try assumption.
  all: intro_goal; try congruence.
  all: repeat match goal with
       | Hin : In _ (_ ++ _) |- _ => apply in_app_or in Hin; destruct Hin as [Hin|Hin]
       | Hin : In _ (_ :: _) |- _ =>
           destruct Hin as [Hin|Hin]; [try discriminate; try (injection Hin as <- <-)|]
       | Hin : In _ [] |- _ => destruct Hin
       end; try reflexivity.
  all: try (match goal with
            | Hin : In (ONext (EvStack ?p ?v)) _,
              Hall : forall p v, In (ONext (EvStack p v)) _ -> _ |- _ =>
                destruct (Hall p v Hin) as (? & ? & ? & ?)
            end; try congruence).
  all: use_hyps; try congruence.
  all: try (rewrite endsAtTerminal_app by assumption; reflexivity).
  all: unfold headCompletes in *; cbn in *; try lia.
  all: repeat match goal with
       | E : _ = true |- _ => rewrite E in *
       | E : _ = false |- _ => rewrite E in *
       end; try reflexivity; try congruence; try lia.
  all: unfold released, owed in *; cbn in *; split_subs; use_hyps;
    try congruence; try lia.
  all: repeat (split_hyp; use_hyps; try congruence; try lia).
Qed.

Lemma start_InvMore (sync : option JsError) :
  InvMore (start (subscribeTmp sync idle)).
Proof.
  destruct sync as [e|]; [rewrite start_refused | rewrite start_accepted];
    unfold InvMore; cbn; repeat split; intros; try congruence;
    try reflexivity;
    repeat match goal with
           | Hin : _ \/ _ |- _ => destruct Hin as [Hin|Hin]; try discriminate
           | Hin : False |- _ => destruct Hin
           end.
Qed.

Lemma run_InvMore (inputs : list Input) (s s' : State) :
  Inv c s -> InvMore s -> run c s inputs = Some s' -> InvMore s'.
Proof.
  revert s; induction inputs as [|i inputs IH]; cbn [run]; intros s HI HM Hr.
  - now injection Hr as <-.
  - destruct (step c s i) as [s1|] eqn:E; [|discriminate].
    apply (IH s1); auto.
    + eapply step_Inv; eauto.
    + eapply step_InvMore; eauto.
Qed.

End MoreInvariants.

Section MoreOnRuns.
Context {H : Host}.

Lemma reach_InvMore (args : list JsVal) (c : Config) (sync : option JsError)
      (inputs : list Input) (s : State) :
  configure args = Some c ->
  run c (subscriber args sync) inputs = Some s -> InvMore s.
Proof.
  intros Hc Hr. rewrite (configure_subscriber args sync Hc) in Hr.
  eapply run_InvMore; [apply start_Inv | apply start_InvMore | exact Hr].
Qed.

(** X8. In every run at most one terminal notification is delivered, and it
    is the last one: whatever is delivered before an error or a completion
    is a progress event, nothing is delivered after it, and the subscription
    is closed. *)
Theorem one_terminal_and_last (args : list JsVal) (sync : option JsError)
        (c : Config) (inputs : list Input) (s : State)
        (pre post : list Emission) (m : Emission) :
  configure args = Some c ->
  run c (subscriber args sync) inputs = Some s ->
  out s = (pre ++ m :: post)%list -> isNext m = false ->
  post = [] /\ forallb isNext pre = true /\ closed s = true.
Proof.
  intros Hc Hr Eo Hm.
  destruct (reach_InvMore _ _ _ Hc Hr) as (HM1 & _).
  destruct (reach_Inv _ _ _ Hc Hr) as (_ & _ & (_ & _ & HT3 & _) & _).
  rewrite Eo in HM1. destruct (endsAtTerminal_at _ _ _ HM1 Hm) as [Ep En].
  split; [exact Ep|]. split; [exact En|].
  destruct (closed s) eqn:Ec; [reflexivity|].
  specialize (HT3 eq_refl). rewrite Eo, forallb_app in HT3.
  apply andb_prop in HT3. destruct HT3 as [_ HT3].
  change (isNext m && forallb isNext post = true) in HT3.
  rewrite Hm in HT3. discriminate.
Qed.

(** X9. [head:complete] is delivered at most once in a run, and has been
    delivered exactly when the body wrapped by [once] has run. *)
Theorem head_complete_once (args : list JsVal) (sync : option JsError)
        (c : Config) (inputs : list Input) (s : State) :
  configure args = Some c ->
  run c (subscriber args sync) inputs = Some s ->
  headCompletes (out s) <= 1
  /\ (headCompletes (out s) = 1 <-> headCompleted s = true).
Proof.
  intros Hc Hr.
  destruct (reach_InvMore _ _ _ Hc Hr) as (_ & HM2 & _).
  rewrite HM2. destruct (headCompleted s); split; try lia; split; congruence.
Qed.

(** X14. Unless the builder's validation of the options reported an error
    (which is forwarded as it came), every error delivered to the consumer
    of an accepted request carries a phase identifier. *)
Theorem errors_carry_phase (args : list JsVal) (sync : option JsError)
        (c : Config) (inputs : list Input) (s : State) (e : JsError) :
  configure args = Some c ->
  run c (subscriber args sync) inputs = Some s ->
  tmpSub s <> SubSettled ->
  In (OError e) (out s) -> exists id, err_id e = Some id.
Proof.
  intros Hc Hr Ht Hin.
  destruct (reach_InvMore _ _ _ Hc Hr) as (_ & _ & HM3 & _).
  specialize (HM3 Ht). rewrite forallb_forall in HM3. specialize (HM3 _ Hin).
  cbn in HM3. destruct (err_id e) as [id|]; [eauto|discriminate].
Qed.

(** X15. A delivered [check-stack] event is the probe's record as it stands
    for the rest of the run: the path the [which] callback stored, the
    version [spawnStack] printed, no error, the probe settled. *)
Theorem check_stack_event_is_the_record (args : list JsVal) (sync : option JsError)
        (c : Config) (inputs : list Input) (s : State)
        (p : option string) (v : string) :
  configure args = Some c ->
  run c (subscriber args sync) inputs = Some s ->
  In (ONext (EvStack p v)) (out s) ->
  p = stackPath s /\ v = stackVersion s
  /\ stackError s = None /\ probe s = ProbeSettled.
Proof.
  intros Hc Hr Hin.
  destruct (reach_InvMore _ _ _ Hc Hr) as (_ & _ & _ & _ & HM5). exact (HM5 p v Hin).
Qed.

(** X6. The builder is started only for a request on the host's own
    platform, where the name it gives its binary is the default name handed
    to [rename], and only after a probe that found a working toolchain. *)
Theorem builder_only_native (args : list JsVal) (sync : option JsError)
        (c : Config) (inputs : list Input) (s : State) :
  configure args = Some c ->
  run c (subscriber args sync) inputs = Some s ->
  builder s <> SubNone ->
  isDifferentPlatform (req c) = false
  /\ defaultBinName (req c) = initialBinName
  /\ stackError s = None /\ probe s = ProbeSettled.
Proof.
  intros Hc Hr Hb.
  destruct (reach_InvMore _ _ _ Hc Hr) as (_ & _ & _ & HM4 & _).
  destruct (reach_Inv _ _ _ Hc Hr)
    as ((_ & _ & _ & _ & _ & HS6) & (_ & _ & _ & HB4 & HB5 & _ & HB7 & _) & _).
  assert (Hf : fired s = 1) by exact (HB5 Hb).
  assert (En : isDifferentPlatform (req c) = false).
  { destruct (isDifferentPlatform (req c)) eqn:Ed; [|reflexivity].
    rewrite (HB7 eq_refl) in Hf. discriminate. }
  split; [exact En|]. split; [exact (native_defaultBinName _ En)|].
  split; [exact (HM4 Hb)|].
  specialize (HB4 Hf). unfold owed in HB4.
  destruct (probe s); try reflexivity; try (now elim HS6);
    destruct (dl s), (verify s); discriminate.
Qed.

(** X7. For a request on a foreign platform nothing beyond the download is
    ever started: the binary is never executed, the body behind the barrier
    never runs, no builder is started and no rename is requested. *)
Theorem foreign_only_downloads (args : list JsVal) (sync : option JsError)
        (c : Config) (inputs : list Input) (s : State) :
  configure args = Some c ->
  run c (subscriber args sync) inputs = Some s ->
  isDifferentPlatform (req c) = true ->
  verify s = ExecNone /\ fired s = 0 /\ builder s = SubNone /\ renames s = [].
Proof.
  intros Hc Hr Hd.
  destruct (reach_Inv _ _ _ Hc Hr)
    as (_ & (_ & _ & _ & _ & HB5 & HB6 & HB7 & HB8 & _) & _).
  pose proof (HB7 Hd) as Hf.
  split; [exact (HB8 Hd)|]. split; [exact Hf|]. split.
  - destruct (builder s) eqn:Eb; auto;
      (assert (fired s = 1) by (apply HB5; congruence)); lia.
  - destruct (renames s) eqn:Er; auto.
    assert (fired s = 1) by (apply HB6; congruence). lia.
Qed.

End MoreOnRuns.

(** ** The download and the verification, callback by callback *)

Section Callbacks.
Context {H : Host}.

(** X16. A failing download of a request on the host's own platform, with
    the consumer subscribed.  After the head milestone it is downgraded to a
    [download-binary:fail] event.  Before it, only the failure coded
    [ERR_UNSUPPORTED_PLATFORM] is downgraded, to [head:fail]; any other one
    ends the stream with the error tagged [head], and the barrier body does
    not run. *)
Theorem native_download_failure (args : list JsVal) (sync : option JsError)
        (c : Config) (inputs : list Input) (s : State) (err : JsError) (s' : State) :
  configure args = Some c ->
  run c (subscriber args sync) inputs = Some s ->
  isDifferentPlatform (req c) = false ->
  step c s (DownloadError err) = Some s' ->
  if headCompleted s
  then exists rest,
         out s' = (out s ++ ONext (EvFail "download-binary:fail"
                                     (addId err "download-binary")) :: rest)%list
  else if unsupportedPlatform err
       then exists rest,
              out s' = (out s ++ ONext (EvFail "head:fail" (addId err "head")) :: rest)%list
       else out s' = (out s ++ [OError (addId err "head")])%list
            /\ closed s' = true /\ fired s' = fired s.
Proof.
  intros Hc Hr Hn Hs.
  destruct (reach_Inv _ _ _ Hc Hr) as ((HS1 & _) & _ & (_ & _ & _ & _ & _ & HT6 & _) & _).
  assert (Ed : dl s = SubActive)
    by (unfold step in Hs; destruct (dl s); congruence).
  assert (Eo : closed s = false) by (destruct (closed s); auto; now elim HS1).
  specialize (HT6 Ed). unfold step in Hs. rewrite Ed, HT6 in Hs.
  injection Hs as <-. clear HS1.
  destruct s as [cl o sp sv se bpe called hc sw subs tmp pr pp d vf bd rn fd].
  cbn in Eo, Ed, HT6 |- *. subst.
  destruct hc.
  - unfold handleBinaryDownloadError. rewrite Hn.
    unfold startBuildIfNeeded, startBuild, startBuildBody, sendError, error, next, close.
    cbn. destruct called; cbn; [|eexists; reflexivity].
    destruct se; cbn; rewrite ?cancel_eq; cbn; rewrite <- ?app_assoc;
      eexists; reflexivity.
  - unfold downloadError. fold (unsupportedPlatform err). rewrite Hn. cbn [negb].
    rewrite andb_true_r. destruct (unsupportedPlatform err).
    + unfold startBuildIfNeeded, startBuild, startBuildBody, sendError, error,
        next, close.
      cbn. destruct called; cbn; [|eexists; reflexivity].
      destruct se; cbn; rewrite ?cancel_eq; cbn; rewrite <- ?app_assoc;
        eexists; reflexivity.
    + unfold sendError, error, close. cbn. rewrite cancel_eq. repeat split.
Qed.

Variable c : Config.

(** X17. The callback of the verification, with the consumer subscribed.
    When the binary ran, [check-binary:complete] is delivered and the stream
    completes.  When it did not, the error is not terminal: it is delivered
    inside a [check-binary:fail] event, tagged [check-binary] and with the
    captured standard error appended to its message on a new line, and the
    barrier has received the call of the download side. *)
Theorem verification_outcome (s : State) (err : option JsError) (stderr : string)
        (s' : State) :
  closed s = false ->
  step c s (ExecDone err stderr) = Some s' ->
  match err with
  | None =>
      out s' = (out s ++ [ONext (EvId "check-binary:complete");
                          OComplete VUndefined])%list
      /\ closed s' = true
  | Some e =>
      startBuildCalled s' = true
      /\ exists rest,
           out s' = (out s ++ ONext (EvFail "check-binary:fail"
                                       (addId (appendMessage e (String "010" stderr))
                                              "check-binary")) :: rest)%list
  end.
Proof.
  intros Eo Hs. unfold step in Hs. destruct (verify s) eqn:Ev; try discriminate.
  injection Hs as <-.
  destruct s as [cl o sp sv se bpe called hc sw subs tmp pr pp d vf bd rn fd].
  cbn in Eo, Ev |- *. subst.
  destruct err as [e|].
  - unfold execCallback, startBuildIfNeeded, startBuild, startBuildBody, sendError,
      error, next, close.
    cbn. destruct called; cbn; [|split; [reflexivity | eexists; reflexivity]].
    destruct se; cbn; rewrite ?cancel_eq; cbn; rewrite <- ?app_assoc;
      (split; [reflexivity | eexists; reflexivity]).
  - unfold execCallback, complete, next, close. cbn. rewrite cancel_eq. cbn.
    rewrite <- app_assoc. split; reflexivity.
Qed.

(** X18. [completeHead] does its work once: a second call changes nothing,
    whatever the first one did. *)
Theorem completeHead_once (s : State) :
  headCompleted (completeHead s) = true
  /\ completeHead (completeHead s) = completeHead s.
Proof.
  assert (Hh : headCompleted (completeHead s) = true).
  { unfold completeHead. destruct (headCompleted s) eqn:Eh; [exact Eh|].
    destruct s as [cl o sp sv se bpe called hc sw subs tmp pr pp d vf bd rn fd].
    unfold sendError, error, next, close. cbn.
    destruct cl, bpe; cbn; rewrite ?cancel_eq; reflexivity. }
  split; [exact Hh|]. unfold completeHead at 1. now rewrite Hh.
Qed.

End Callbacks.

(** ** The order of the download path *)

Lemma downloadPhase_app (q : DownloadPhase) (l l' : list Emission) :
  downloadPhase q (l ++ l')
  = match downloadPhase q l with
    | Some q' => downloadPhase q' l'
    | None => None
    end.
Proof.
  revert q; induction l as [|m l IH]; intros q; cbn [app downloadPhase]; auto.
  destruct (downloadStep q m); auto.
Qed.

(** What an accepted sequence has before each of the four notifications. *)
Lemma downloadPhase_at (pre post : list Emission) (m : Emission) (q0 q : DownloadPhase) :
  downloadPhase q0 (pre ++ m :: post) = Some q ->
  exists q1 q2,
    downloadPhase q0 pre = Some q1 /\ downloadStep q1 m = Some q2
    /\ downloadPhase q2 post = Some q.
Proof.
  rewrite downloadPhase_app. destruct (downloadPhase q0 pre) as [q1|]; [|discriminate].
  cbn [downloadPhase]. destruct (downloadStep q1 m) as [q2|] eqn:E; [|discriminate].
  intros Hp. exists q1, q2. auto.
Qed.

Lemma downloadStep_inv (q1 q2 : DownloadPhase) (x : Emission) :
  downloadStep q1 x = Some q2 ->
  (x = ONext (EvId "download-binary:complete")
   /\ q1 = Downloading /\ q2 = JustDownloaded)
  \/ (x = ONext (EvId "check-binary") /\ q1 = JustDownloaded /\ q2 = Verifying)
  \/ ((x = ONext (EvId "check-binary:complete")
       \/ exists e, x = ONext (EvFail "check-binary:fail" e))
      /\ q1 = Verifying /\ q2 = Verified)
  \/ (x <> ONext (EvId "download-binary:complete")
      /\ x <> ONext (EvId "check-binary")
      /\ x <> ONext (EvId "check-binary:complete")
      /\ (forall e, x <> ONext (EvFail "check-binary:fail" e))
      /\ q2 = ages q1).
Proof.
  unfold downloadStep, ages.
  destruct x as [[id|id e|p v|id r]|e|v].
  2: destruct (String.eqb id "check-binary:fail") eqn:E4;
       [apply String.eqb_eq in E4; subst;
        destruct q1; intros [= <-]; right; right; left; eauto
       |apply String.eqb_neq in E4].
  1: destruct (String.eqb id "download-binary:complete") eqn:E1;
       [apply String.eqb_eq in E1; subst; destruct q1; intros [= <-]; left; auto
       |apply String.eqb_neq in E1;
        destruct (String.eqb id "check-binary") eqn:E2;
        [apply String.eqb_eq in E2; subst;
         destruct q1; intros [= <-]; right; left; auto
        |apply String.eqb_neq in E2;
         destruct (String.eqb id "check-binary:complete") eqn:E3;
         [apply String.eqb_eq in E3; subst;
          destruct q1; intros [= <-]; right; right; left; auto
         |apply String.eqb_neq in E3]]].
  all: intros [= <-]; right; right; right; repeat split; try congruence.
  all: intros; congruence.
Qed.

(** What the phase after a prefix says about that prefix. *)
Lemma downloadPhase_history (l : list Emission) (q : DownloadPhase) :
  downloadPhase Downloading l = Some q ->
  (q = Downloading -> ~ In (ONext (EvId "download-binary:complete")) l)
  /\ (q <> Verified ->
      ~ In (ONext (EvId "check-binary:complete")) l
      /\ forall e, ~ In (ONext (EvFail "check-binary:fail" e)) l)
  /\ (q = Verifying -> In (ONext (EvId "check-binary")) l)
  /\ (q = JustDownloaded ->
      exists pre, l = (pre ++ [ONext (EvId "download-binary:complete")])%list).
Proof.
  revert q; induction l as [|x l IH] using rev_ind; intros q Hp.
  - cbn in Hp. injection Hp as <-.
    repeat split; try discriminate; auto; intros e [].
  - rewrite downloadPhase_app in Hp.
    destruct (downloadPhase Downloading l) as [q1|] eqn:E1; [|discriminate].
    cbn [downloadPhase] in Hp.
    destruct (downloadStep q1 x) as [q2|] eqn:E; [|discriminate].
    injection Hp as ->. destruct (IH q1 eq_refl) as (I1 & I2 & I3 & I4).
    apply downloadStep_inv in E.
    destruct E as [(-> & -> & ->)|[(-> & -> & ->)|[(Hx & -> & ->)|(N1 & N2 & N3 & N4 & ->)]]].
    + split; [discriminate|]. split; [|split; [discriminate|eauto]].
      intros _. destruct I2 as [Ia Ib]; [discriminate|].
      split; [|intros e]; intros Hin; apply in_app_or in Hin;
        destruct Hin as [Hin|[Hin|[]]]; try discriminate;
        [apply Ia | apply (Ib e)]; exact Hin.
    + split; [discriminate|]. split; [|split; [|discriminate]].
      * intros _. destruct I2 as [Ia Ib]; [discriminate|].
        split; [|intros e]; intros Hin; apply in_app_or in Hin;
          destruct Hin as [Hin|[Hin|[]]]; try discriminate;
          [apply Ia | apply (Ib e)]; exact Hin.
      * intros _. apply in_or_app. right. left. reflexivity.
    + split; [discriminate|]. split; [congruence|]. split; discriminate.
    + split; [|split; [|split]].
      * intros Hq Hin. apply in_app_or in Hin. destruct Hin as [Hin|[Hin|[]]].
        -- apply I1; [destruct q1; try discriminate; reflexivity | exact Hin].
        -- congruence.
      * intros Hq. destruct I2 as [Ia Ib]; [intros ->; apply Hq; reflexivity|].
        split; [|intros e]; intros Hin; apply in_app_or in Hin;
          destruct Hin as [Hin|[Hin|[]]];
          [apply Ia; exact Hin | congruence | apply (Ib e); exact Hin | ].
        exact (N4 e Hin).
      * intros Hq. apply in_or_app. left. apply I3. destruct q1; try discriminate; reflexivity.
      * intros Hq. destruct q1; discriminate.
Qed.

#[local] Arguments downloadPhase : simpl never.
#[local] Arguments InvDownload : simpl never.

Section DownloadOrder.
Context {H : Host}.
Variable c : Config.

Lemma step_InvDownload (s : State) (i : Input) (s' : State) :
  Inv c s -> InvDownload s -> step c s i = Some s' -> InvDownload s'.
Proof.
  intros (HS & HB & HT & HP) (q & Hq & HI) Hs. destruct s.
  destruct i; open_step Hs.
  all: branches.
  all: carried_progress; clear HP.
  all: unfold InvDownload, InvSubs in *;
    destruct HB as (_ & _ & _ & _ & _ & _ & _ & HB8 & _);
    destruct HS as (HS1 & _ & _ & _ & HS5 & _);
    clear HT; cbn in *.
  all: rewrite <- ?app_assoc, ?downloadPhase_app, ?Hq.
  all: destruct HI as (HI1 & HI2).
  all: try (specialize (HI2 _ eq_refl)).
  all: use_hyps; subst.
  all: unfold downloadPhase, downloadStep; cbn.
  all: eexists; (split; [reflexivity|]).
  all: unfold released in *; split_subs.
  all: split; intros; try congruence.
  all: use_hyps; subst; try congruence; try reflexivity.
  all: try solve [eauto].
  all: repeat split_hyp; try congruence.
  all: match goal with
       | Hv : forall f, ExecPending ?x = ExecPending f -> _ |- _ =>
           rewrite (Hv _ eq_refl eq_refl)
       end; reflexivity.
Qed.

Lemma start_InvDownload (sync : option JsError) :
  InvDownload (start (subscribeTmp sync idle)).
Proof.
  destruct sync as [e|]; [rewrite start_refused | rewrite start_accepted];
    exists Downloading; repeat split; intros; try reflexivity; discriminate.
Qed.

Lemma run_InvDownload (inputs : list Input) (s s' : State) :
  Inv c s -> InvDownload s -> run c s inputs = Some s' -> InvDownload s'.
Proof.
  revert s; induction inputs as [|i inputs IH]; cbn [run]; intros s HI HM Hr.
  - now injection Hr as <-.
  - destruct (step c s i) as [s1|] eqn:E; [|discriminate].
    apply (IH s1); auto.
    + eapply step_Inv; eauto.
    + eapply step_InvDownload; eauto.
Qed.

End DownloadOrder.

Section DownloadOrderOnRuns.
Context {H : Host}.

(** X19. The order of the download path in every run:
    [download-binary:complete] is delivered at most once; [check-binary]
    comes only right after it; and [check-binary:complete] and
    [check-binary:fail] come only after [check-binary], one of them at
    most. *)
Theorem download_path_order (args : list JsVal) (sync : option JsError)
        (c : Config) (inputs : list Input) (s : State)
        (pre post : list Emission) :
  configure args = Some c ->
  run c (subscriber args sync) inputs = Some s ->
  (out s = (pre ++ ONext (EvId "download-binary:complete") :: post)%list ->
   ~ In (ONext (EvId "download-binary:complete")) pre)
  /\ (out s = (pre ++ ONext (EvId "check-binary") :: post)%list ->
      exists pre', pre = (pre' ++ [ONext (EvId "download-binary:complete")])%list)
  /\ (forall m,
        out s = (pre ++ m :: post)%list ->
        m = ONext (EvId "check-binary:complete")
        \/ (exists e, m = ONext (EvFail "check-binary:fail" e)) ->
        In (ONext (EvId "check-binary")) pre
        /\ ~ In (ONext (EvId "check-binary:complete")) pre
        /\ forall e, ~ In (ONext (EvFail "check-binary:fail" e)) pre).
Proof.
  intros Hc Hr.
  assert (HD : InvDownload s).
  { rewrite (configure_subscriber args sync Hc) in Hr.
    eapply run_InvDownload; [apply start_Inv | apply start_InvDownload | exact Hr]. }
  destruct HD as (q & Hq & _).
  split; [|split].
  - intros Eo. rewrite Eo in Hq.
    destruct (downloadPhase_at _ _ _ _ Hq) as (q1 & q2 & H1 & H2 & _).
    apply (downloadPhase_history _ H1).
    cbn in H2. destruct q1; try discriminate; reflexivity.
  - intros Eo. rewrite Eo in Hq.
    destruct (downloadPhase_at _ _ _ _ Hq) as (q1 & q2 & H1 & H2 & _).
    apply (downloadPhase_history _ H1).
    cbn in H2. destruct q1; try discriminate; reflexivity.
  - intros m Eo Hm. rewrite Eo in Hq.
    destruct (downloadPhase_at _ _ _ _ Hq) as (q1 & q2 & H1 & H2 & _).
    assert (q1 = Verifying) as ->
      by (destruct Hm as [->|[e ->]]; cbn in H2; destruct q1; try discriminate; reflexivity).
    destruct (downloadPhase_history _ H1) as (_ & I2 & I3 & _).
    destruct I2 as [Ia Ib]; [discriminate|]. auto.
Qed.

End DownloadOrderOnRuns.

(** ** The binary name and the download filter *)

Section Names.
Context {H : Host}.

(** X20. An accepted request has a non-empty directory and a non-empty
    binary name, which is what [rename] returned; without a [rename] option
    it is [purs.exe] for the platform [win32] and [purs] for any other one,
    the platform being the [platform] option when that is truthy and the
    host's otherwise. *)
Theorem configured_names (args : list JsVal) (c : Config) :
  configure args = Some c ->
  dir (req c) <> "" /\ binName c <> ""
  /\ renamed (req c) = VStr (binName c)
  /\ (getProp (options (req c)) "rename" = VUndefined ->
      binName c
      = if strictEqStr (if truthy (getProp (options (req c)) "platform")
                        then getProp (options (req c)) "platform"
                        else VStr process_platform) "win32"
        then "purs.exe" else "purs").
Proof.
  intros Hc. pose proof (configure_renamed _ Hc) as Hr.
  destruct (configure_inv _ Hc) as [Ha Hb].
  split; [|split; [|split; [exact Hr|]]].
  - unfold checkArgs in Ha.
    destruct args as [|a [|b [|x rest]]]; cbn [List.length Nat.eqb negb andb nth] in Ha;
      try discriminate; destruct a; try discriminate;
      (destruct s as [|ch d]; [discriminate|]); cbn [String.length Nat.eqb] in Ha.
    + injection Ha as Ha. rewrite <- Ha. discriminate.
    + repeat match type of Ha with
             | (if ?b then _ else _) = _ => destruct b; [discriminate|]
             | match ?x with Some _ => _ | None => _ end = _ => destruct x; [discriminate|]
             end.
      injection Ha as Ha. rewrite <- Ha. discriminate.
  - unfold checkBinName in Hb. rewrite Hr in Hb.
    destruct (binName c); [discriminate|discriminate].
  - intros Hu. unfold renamed in Hr. rewrite Hu in Hr.
    injection Hr as <-. unfold defaultBinName, getPlatformBinName.
    destruct (strictEqStr _ "win32"); reflexivity.
Qed.

Variable c : Config.

(** X21. The download filter.  Every entry completes the head milestone,
    also one the filter then rejects: the effect on the coordinator does not
    depend on the path.  All the entries it accepts are rewritten to one and
    the same target, whatever their own paths and fields were, and a rejected
    entry is left as it is. *)
Theorem filter_uniform (s s' : State) (path path' : string) (e e' : Entry) :
  step c s (Filter path) = Some s' ->
  step c s (Filter path') = Some s'
  /\ headCompleted s' = true
  /\ (fst (filterEntry c path e) = true -> fst (filterEntry c path' e') = true ->
      snd (filterEntry c path e) = snd (filterEntry c path' e')
      /\ entry_path (snd (filterEntry c path e))
         = header_path (snd (filterEntry c path e)))
  /\ (fst (filterEntry c path e) = false -> snd (filterEntry c path e) = e).
Proof.
  intros Hs. split; [exact Hs|]. split.
  - cbn in Hs. destruct (dl s); try discriminate. injection Hs as <-.
    destruct s; branches; reflexivity.
  - unfold filterEntry. split.
    + destruct (negb (String.eqb (basename path ".exe") "purs")); [discriminate|].
      destruct (negb (String.eqb (basename path' ".exe") "purs")); [discriminate|].
      intros _ _. split; reflexivity.
    + destruct (negb (String.eqb (basename path ".exe") "purs")); [reflexivity|].
      discriminate.
Qed.

End Names.

(** ** The further properties at concrete requests *)

Ltac settle := first [by_running | vm_compute; discriminate | vm_compute; tauto].


Lemma checkArgs_error_kind_witness :
  exists thrown,
    checkArgs (H:=linuxHost) [VUndefined] = inl thrown
    /\ err_code thrown = None.
Proof.
  eexists. split; [by_running|].
  refine (proj1 (@checkArgs_error_kind linuxHost [VUndefined] _ _)); by_running.
Defined.

(** X5: the [filter] option is set. *)
Lemma unsupported_option_is_refused_witness :
  exists thrown,
    checkArgs (H:=linuxHost) [VStr "/tmp/x"; filterOptions] = inl thrown
    /\ err_name thrown = "Error".
Proof.
  destruct (@unsupported_option_is_refused linuxHost "/tmp/x" [("filter", VNaN)])
    as (thrown & E & N & _).
  - discriminate.
  - left; reflexivity.
  - left; discriminate.
  - exists thrown. split; assumption.
Defined.

(** X6, X15: the platform is unsupported and the toolchain is found. *)
Lemma builder_only_native_witness :
  exists s,
    run (H:=linuxHost) plainConfig (subscriber (H:=linuxHost) plainArgs None)
        unsupportedThenProbed = Some s
    /\ isDifferentPlatform (H:=linuxHost) (req plainConfig) = false.
Proof.
  eexists. split; [by_running|].
  refine (proj1 (@builder_only_native linuxHost plainArgs None plainConfig
                   unsupportedThenProbed _ _ _ _));
    settle.
Defined.

Lemma check_stack_event_is_the_record_witness :
  exists s,
    run (H:=linuxHost) plainConfig (subscriber (H:=linuxHost) plainArgs None)
        unsupportedThenProbed = Some s
    /\ Some "/usr/bin/stack" = stackPath s.
Proof.
  eexists. split; [by_running|].
  refine (proj1 (@check_stack_event_is_the_record linuxHost plainArgs None plainConfig
                   unsupportedThenProbed _ (Some "/usr/bin/stack") "1.9.1" _ _ _));
    settle.
Defined.

(** X7: a request for [android] whose archive is being read. *)
Lemma foreign_only_downloads_witness :
  exists s,
    run (H:=linuxHost) androidConfig (subscriber (H:=linuxHost) androidArgs None)
        [Filter "purescript/purs"; DownloadComplete] = Some s
    /\ verify s = ExecNone.
Proof.
  eexists. split; [by_running|].
  refine (proj1 (@foreign_only_downloads linuxHost androidArgs None androidConfig
                   [Filter "purescript/purs"; DownloadComplete] _ _ _ _));
    settle.
Defined.

(** X8, X9, X19: the download succeeds and the binary runs. *)
Lemma one_terminal_and_last_witness :
  exists s,
    run (H:=linuxHost) plainConfig (subscriber (H:=linuxHost) plainArgs None)
        downloadedAndVerified = Some s
    /\ closed s = true.
Proof.
  eexists. split; [by_running|].
  refine (proj2 (proj2 (@one_terminal_and_last linuxHost plainArgs None plainConfig
                          downloadedAndVerified _
                          [ONext (EvId "head"); ONext (EvId "head:complete");
                           ONext (EvProgress "download-binary" []);
                           ONext (EvId "download-binary:complete");
                           ONext (EvId "check-binary");
                           ONext (EvId "check-binary:complete")]
                          [] (OComplete VUndefined) _ _ _ _)));
    settle.
Defined.

Lemma head_complete_once_witness :
  exists s,
    run (H:=linuxHost) plainConfig (subscriber (H:=linuxHost) plainArgs None)
        downloadedAndVerified = Some s
    /\ headCompletes (out s) <= 1.
Proof.
  eexists. split; [by_running|].
  refine (proj1 (@head_complete_once linuxHost plainArgs None plainConfig
                   downloadedAndVerified _ _ _));
    settle.
Defined.

Lemma download_path_order_witness :
  exists s,
    run (H:=linuxHost) plainConfig (subscriber (H:=linuxHost) plainArgs None)
        downloadedAndVerified = Some s
    /\ ~ In (ONext (EvId "check-binary:complete"))
            [ONext (EvId "head"); ONext (EvId "head:complete");
             ONext (EvProgress "download-binary" []);
             ONext (EvId "download-binary:complete");
             ONext (EvId "check-binary")].
Proof.
  eexists. split; [by_running|].
  refine (proj1 (proj2 (proj2 (proj2 (@download_path_order linuxHost plainArgs None
                    plainConfig downloadedAndVerified _
                    [ONext (EvId "head"); ONext (EvId "head:complete");
                     ONext (EvProgress "download-binary" []);
                     ONext (EvId "download-binary:complete");
                     ONext (EvId "check-binary")]
                    [OComplete VUndefined] _ _))
                  (ONext (EvId "check-binary:complete")) _ (or_introl eq_refl))));
    settle.
Defined.

(** X10: the second [download] is kept. *)
Lemma replaceFirst_first_occurrence_witness :
  replaceFirst "download" "download-source" "redownload:download"
  = "redownload-source:download".
Proof.
  apply (@replaceFirst_first_occurrence "download" "download-source" "re" ":download").
  intros k Hk. destruct k as [|[|k]]; [reflexivity | reflexivity | cbn in Hk; lia].
Defined.

(** X13: the builder refuses the options of the plain request. *)
Lemma validation_error_is_forwarded_witness :
  exists s',
    step (H:=linuxHost) plainConfig (subscriber (H:=linuxHost) plainArgs None)
         (TmpError someError) = Some s'
    /\ closed s' = true.
Proof.
  eexists. split; [by_running|].
  refine (proj2 (proj1 (@validation_error_is_forwarded linuxHost plainConfig
                          (subscriber (H:=linuxHost) plainArgs None) someError _ _) _));
    settle.
Defined.

(** X14, X16: the download of the plain request fails at once. *)
Lemma errors_carry_phase_witness :
  exists s,
    run (H:=linuxHost) plainConfig (subscriber (H:=linuxHost) plainArgs None)
        [DownloadError someError] = Some s
    /\ exists id, err_id (addId someError "head") = Some id.
Proof.
  eexists. split; [by_running|].
  refine (@errors_carry_phase linuxHost plainArgs None plainConfig
            [DownloadError someError] _ (addId someError "head") _ _ _ _);
    settle.
Defined.

Lemma native_download_failure_witness :
  exists s',
    step (H:=linuxHost) plainConfig (subscriber (H:=linuxHost) plainArgs None)
         (DownloadError someError) = Some s'
    /\ closed s' = true.
Proof.
  eexists. split; [by_running|].
  refine (proj1 (proj2 (@native_download_failure linuxHost plainArgs None plainConfig
                          [] (subscriber (H:=linuxHost) plainArgs None) someError
                          _ _ _ _ _)));
    settle.
Defined.

(** X17: the downloaded binary runs. *)
Lemma verification_outcome_witness :
  exists s s',
    run (H:=linuxHost) plainConfig (subscriber (H:=linuxHost) plainArgs None)
        [Filter "purescript/purs"; DownloadComplete] = Some s
    /\ step (H:=linuxHost) plainConfig s (ExecDone None "") = Some s'
    /\ closed s' = true.
Proof.
  eexists; eexists. split; [by_running|]. split; [by_running|].
  match goal with
  | |- closed ?s' = true =>
      refine (proj2 (@verification_outcome linuxHost plainConfig
                       (mkState false
                          [ONext (EvId "head"); ONext (EvId "head:complete");
                           ONext (EvId "download-binary:complete");
                           ONext (EvId "check-binary")]
                          (Some "stack") "" None None false true true [SubDownload]
                          SubActive ProbeWhich OpPending SubSettled
                          (ExecPending "/tmp/x/purs") SubNone [] 0)
                       None "" s' _ _))
  end; settle.
Defined.

(** X20: the binary is renamed to [purs.bin]. *)
Lemma configured_names_witness :
  exists c,
    configure (H:=linuxHost) renameArgs = Some c /\ binName c <> "".
Proof.
  eexists. split; [by_running|].
  refine (proj1 (proj2 (@configured_names linuxHost renameArgs _ _)));
    settle.
Defined.

(** X21: the first entry of the archive. *)
Lemma filter_uniform_witness :
  exists s',
    step (H:=linuxHost) plainConfig (subscriber (H:=linuxHost) plainArgs None)
         (Filter "purescript/README") = Some s'
    /\ headCompleted s' = true.
Proof.
  eexists. split; [by_running|].
  refine (proj1 (proj2 (@filter_uniform linuxHost plainConfig
                          (subscriber (H:=linuxHost) plainArgs None) _
                          "purescript/README" "purescript/purs"
                          (mkEntry "purescript/README" "purescript/README" "")
                          (mkEntry "purescript/purs" "purescript/purs" "") _)));
    settle.
Defined.
